(** * Entity adapters of the home-automation platform: MQTT lock, Plugwise
    climate and Plugwise switch.

    Shallow embedding of
      homeassistant/components/mqtt/lock.py
      homeassistant/components/plugwise/climate.py
      homeassistant/components/plugwise/switch.py
    The adapters are Python methods that read dictionaries, mutate the
    attributes of [self] and call external collaborators (the MQTT client,
    the platform's state machine, the vendor gateway client).  Each method
    is embedded as a computation in a small state-and-exception monad whose
    state is the entity and whose trace records the outward calls. *)

From Stdlib Require Import QArith.
From stdpp Require Import gmap strings list.

Close Scope Q_scope.

(** ** Python values *)

Module Py.

(** A Python [float]: the finite ones are rationals (every finite double is
    one, and comparison of doubles is comparison of these rationals), plus
    the two infinities and NaN. *)
Inductive pyfloat : Type :=
| FNan
| FNegInf
| FFin (q : Q)
| FPosInf.

(** The numbers of Python: [int] (unbounded) and [float]. *)
Inductive pynum : Type :=
| NInt (z : Z)
| NFloat (f : pyfloat).

Definition to_float (n : pynum) : pyfloat :=
  match n with
  | NInt z => FFin (inject_Z z)
  | NFloat f => f
  end.

Definition Qlt_bool (a b : Q) : bool := negb (Qle_bool b a).

(** [a < b] on floats: false as soon as one side is NaN. *)
Definition float_lt (a b : pyfloat) : bool :=
  match a, b with
  | FNan, _ | _, FNan => false
  | FNegInf, FNegInf => false
  | FNegInf, _ => true
  | _, FNegInf => false
  | FFin p, FFin q => Qlt_bool p q
  | FFin _, FPosInf => true
  | FPosInf, _ => false
  end.

(** [a <= b] on floats. *)
Definition float_le (a b : pyfloat) : bool :=
  match a, b with
  | FNan, _ | _, FNan => false
  | FNegInf, _ => true
  | _, FNegInf => false
  | FFin p, FFin q => Qle_bool p q
  | _, FPosInf => true
  | FPosInf, _ => false
  end.

(** Mixed [int]/[float] comparison is exact in Python. *)
Definition num_lt (a b : pynum) : bool := float_lt (to_float a) (to_float b).
Definition num_le (a b : pynum) : bool := float_le (to_float a) (to_float b).

(** The values the adapters handle.  A [dict] value keeps its keys in
    insertion order ([list(d)] returns them in that order), so it is an
    association list; keys are strings throughout the device data. *)
#[warnings="-register-all"]
Inductive pyval : Type :=
| PNone
| PBool (b : bool)
| PInt (z : Z)
| PFloat (f : pyfloat)
| PStr (s : string)
| PList (l : list pyval)
| PDict (d : list (string * pyval)).

(** Truth value testing ([if v:], [not v]). *)
Definition truthy (v : pyval) : bool :=
  match v with
  | PNone => false
  | PBool b => b
  | PInt z => negb (z =? 0)%Z
  | PFloat (FFin q) => negb (Qeq_bool q 0)
  | PFloat _ => true
  | PStr s => negb (String.eqb s "")
  | PList l => match l with [] => false | _ => true end
  | PDict d => match d with [] => false | _ => true end
  end.

(** [bool] is a subclass of [int]: [True] and [False] compare as 1 and 0. *)
Definition as_num (v : pyval) : option pynum :=
  match v with
  | PBool b => Some (NInt (if b then 1 else 0))
  | PInt z => Some (NInt z)
  | PFloat f => Some (NFloat f)
  | _ => None
  end.

(** [v == s] for a string literal [s]: only an equal [str] is equal to it. *)
Definition eq_str (v : pyval) (s : string) : bool :=
  match v with
  | PStr s' => String.eqb s' s
  | _ => false
  end.

(** [v in l] for a list of string literals. *)
Definition in_strs (v : pyval) (l : list string) : bool :=
  existsb (eq_str v) l.

(** First binding of [k] in an insertion-ordered dict. *)
Fixpoint assoc (d : list (string * pyval)) (k : string) : option pyval :=
  match d with
  | [] => None
  | (k', v) :: d' => if String.eqb k' k then Some v else assoc d' k
  end.

(** The exceptions the adapters can raise. *)
Inductive exn : Type :=
| KeyError
| ValueError
| TypeError
| AttributeError.

Inductive outcome (A : Type) : Type :=
| Return (a : A)
| Raise (e : exn).
Arguments Return {A} a.
Arguments Raise {A} e.

(** [d.get(k)] on a dict with string keys: [None] when the key is missing,
    so a missing key and a stored [None] read the same. *)
Definition dict_get (d : gmap string pyval) (k : string) : pyval :=
  default PNone (d !! k).

(** [v.get(k)] on an arbitrary value: only a dict has the method. *)
Definition val_get (v : pyval) (k : string) : outcome pyval :=
  match v with
  | PDict d => Return (default PNone (assoc d k))
  | _ => Raise AttributeError
  end.

(** [list(v)]: the keys of a dict, the items of a list, the characters of a
    string; anything else is not iterable. *)
Definition to_list (v : pyval) : outcome pyval :=
  match v with
  | PDict d => Return (PList (map (fun kv => PStr (fst kv)) d))
  | PList l => Return (PList l)
  | PStr s =>
      Return (PList (map (fun c => PStr (String c EmptyString))
                         (String.list_ascii_of_string s)))
  | _ => Raise TypeError
  end.

(** [a < v] for a number [a]: a [TypeError] unless [v] is a number too. *)
Definition num_lt_val (a : pynum) (v : pyval) : outcome bool :=
  match as_num v with
  | Some n => Return (num_lt a n)
  | None => Raise TypeError
  end.

(** [v < b] for a number [b]. *)
Definition val_lt_num (v : pyval) (b : pynum) : outcome bool :=
  match as_num v with
  | Some n => Return (num_lt n b)
  | None => Raise TypeError
  end.

(** *** Methods as computations

    A method runs on the entity [S] and appends the outward calls it makes
    to a trace of events [E].  An exception leaves in place what was
    assigned and emitted before it was raised. *)
Section Monad.
Context {S E : Type}.

Definition M (A : Type) : Type := S -> list E -> outcome A * S * list E.

Definition ret {A} (a : A) : M A := fun s tr => (Return a, s, tr).

Definition raise {A} (e : exn) : M A := fun s tr => (Raise e, s, tr).

Definition bind {A B} (m : M A) (k : A -> M B) : M B :=
  fun s tr =>
    match m s tr with
    | (Return a, s', tr') => k a s' tr'
    | (Raise e, s', tr') => (Raise e, s', tr')
    end.

(** Read [self]. *)
Definition self : M S := fun s tr => (Return s, s, tr).

(** Assign to attributes of [self]. *)
Definition assign (f : S -> S) : M unit := fun s tr => (Return tt, f s, tr).

(** Call an external collaborator. *)
Definition call (ev : E) : M unit := fun s tr => (Return tt, s, tr ++ [ev]).

(** Lift the result of a pure operation that may raise. *)
Definition lift {A} (o : outcome A) : M A :=
  match o with
  | Return a => ret a
  | Raise e => raise e
  end.

(** [d[k]] on a typed mapping. *)
Definition getitem {V} (d : gmap string V) (k : string) : M V :=
  match d !! k with
  | Some v => ret v
  | None => raise KeyError
  end.

(** [d[k]] where the key is itself a value read from the data: a list or
    a dict is unhashable, and no other non-string is a key of [d]. *)
Definition getitem_val {V} (d : gmap string V) (k : pyval) : M V :=
  match k with
  | PStr s => getitem d s
  | PList _ | PDict _ => raise TypeError
  | _ => raise KeyError
  end.

(** [if c: body] without [else]. *)
Definition when (c : bool) (body : M unit) : M unit :=
  if c then body else ret tt.

(** Run a method on an entity, from the empty trace. *)
Definition run {A} (m : M A) (s : S) : outcome A * S * list E := m s [].

Definition result {A} (r : outcome A * S * list E) : outcome A := r.1.1.
Definition after {A} (r : outcome A * S * list E) : S := r.1.2.
Definition calls {A} (r : outcome A * S * list E) : list E := r.2.

End Monad.

Arguments M : clear implicits.

End Py.

Import Py.

(** stdpp's monad notations ([x ← m; k] and [m;; k]) for methods. *)
#[global] Instance M_ret {S E} : MRet (M S E) := @ret S E.
#[global] Instance M_bind {S E} : MBind (M S E) := fun A B k m => bind m k.

(** ** The MQTT lock (mqtt/lock.py) *)

Module Lock.

(** [self._config]: the configuration after validation by [PLATFORM_SCHEMA].
    Keys that the schema requires or gives a default are always present;
    [CONF_STATE_TOPIC], [CONF_PAYLOAD_OPEN] and [CONF_VALUE_TEMPLATE] are
    optional without a default and may be missing. *)
Record config : Type := {
  CONF_COMMAND_TOPIC : string;
  CONF_STATE_TOPIC : option string;
  CONF_QOS : Z;
  CONF_RETAIN : bool;
  CONF_ENCODING : string;
  CONF_OPTIMISTIC : bool;
  CONF_PAYLOAD_LOCK : string;
  CONF_PAYLOAD_UNLOCK : string;
  CONF_PAYLOAD_OPEN : option string;
  CONF_STATE_LOCKED : string;
  CONF_STATE_UNLOCKED : string;
  CONF_VALUE_TEMPLATE : option string
}.

Definition DEFAULT_OPTIMISTIC : bool := false.
Definition DEFAULT_PAYLOAD_LOCK : string := "LOCK".
Definition DEFAULT_PAYLOAD_UNLOCK : string := "UNLOCK".
Definition DEFAULT_PAYLOAD_OPEN : string := "OPEN".
Definition DEFAULT_STATE_LOCKED : string := "LOCKED".
Definition DEFAULT_STATE_UNLOCKED : string := "UNLOCKED".

(** What [subscription.async_prepare_subscribe_topics] is handed for the
    state topic; its callback is [message_received] below. *)
Record subscription : Type := {
  sub_topic : string;
  sub_qos : Z;
  sub_encoding : option string
}.

(** The attributes of a [MqttLock] instance. *)
Record MqttLock : Type := {
  _config : config;
  _state : bool;
  _optimistic : bool;
  _value_template : string -> string;
  _sub_state : option subscription
}.

Definition set_state (b : bool) (s : MqttLock) : MqttLock :=
  {| _config := _config s; _state := b; _optimistic := _optimistic s;
     _value_template := _value_template s; _sub_state := _sub_state s |}.

Definition set_optimistic (b : bool) (s : MqttLock) : MqttLock :=
  {| _config := _config s; _state := _state s; _optimistic := b;
     _value_template := _value_template s; _sub_state := _sub_state s |}.

Definition set_value_template (f : string -> string) (s : MqttLock) : MqttLock :=
  {| _config := _config s; _state := _state s; _optimistic := _optimistic s;
     _value_template := f; _sub_state := _sub_state s |}.

Definition set_sub_state (u : option subscription) (s : MqttLock) : MqttLock :=
  {| _config := _config s; _state := _state s; _optimistic := _optimistic s;
     _value_template := _value_template s; _sub_state := u |}.

(** The outward calls of the lock: a publish through the MQTT client, a
    state write to the platform (recorded with the [is_locked] and
    [assumed_state] the platform reads back), and the preparation of the
    state-topic subscription.  The decorator [log_messages] of the message
    callback only logs and is left out. *)
Inductive event : Type :=
| async_publish (topic payload : string) (qos : Z) (retain : bool)
    (encoding : string)
| async_write_ha_state (is_locked assumed_state : bool)
| async_prepare_subscribe_topics (sub : subscription).

(** [is_locked] property. *)
Definition is_locked (s : MqttLock) : bool := _state s.

(** [assumed_state] property. *)
Definition assumed_state (s : MqttLock) : bool := _optimistic s.

(** [supported_features] property; [SUPPORT_OPEN] is the lock platform's
    feature flag. *)
Definition supported_features (SUPPORT_OPEN : Z) (s : MqttLock) : Z :=
  match CONF_PAYLOAD_OPEN (_config s) with
  | Some _ => SUPPORT_OPEN
  | None => 0%Z
  end.

Definition write_ha_state : M MqttLock event unit :=
  s ← self;
  call (async_write_ha_state (is_locked s) (assumed_state s)).

Section Template.

(** [MqttValueTemplate(template, entity=self).async_render_with_possible_json_value]:
    the renderer the MQTT integration builds from the configured value
    template; it maps a received payload to the rendered payload. *)
Variable async_render_with_possible_json_value : option string -> string -> string.

(** [MqttLock.__init__], up to the call of [MqttEntity.__init__]. *)
Definition __init__ (cfg : config) : MqttLock :=
  {| _config := cfg; _state := false; _optimistic := false;
     _value_template := fun payload => payload; _sub_state := None |}.

(** [_setup_from_config(config)] *)
Definition _setup_from_config (cfg : config) : M MqttLock event unit :=
  assign (set_optimistic (CONF_OPTIMISTIC cfg));;
  s ← self;
  assign (set_value_template
            (async_render_with_possible_json_value
               (CONF_VALUE_TEMPLATE (_config s)))).

End Template.

(** The callback [message_received(msg)] of the state topic, on
    [msg.payload]. *)
Definition message_received (msg_payload : string) : M MqttLock event unit :=
  s ← self;
  let payload := _value_template s msg_payload in
  (if String.eqb payload (CONF_STATE_LOCKED (_config s)) then
     assign (set_state true)
   else if String.eqb payload (CONF_STATE_UNLOCKED (_config s)) then
     assign (set_state false)
   else ret tt);;
  write_ha_state.

(** [_prepare_subscribe_topics()] *)
Definition _prepare_subscribe_topics : M MqttLock event unit :=
  s ← self;
  match CONF_STATE_TOPIC (_config s) with
  | None =>
      (* Force into optimistic mode. *)
      assign (set_optimistic true)
  | Some topic =>
      let sub :=
        {| sub_topic := topic;
           sub_qos := CONF_QOS (_config s);
           sub_encoding :=
             if String.eqb (CONF_ENCODING (_config s)) ""
             then None else Some (CONF_ENCODING (_config s)) |} in
      call (async_prepare_subscribe_topics sub);;
      assign (set_sub_state (Some sub))
  end.

(** [self._config[CONF_PAYLOAD_OPEN]]: the key may be missing. *)
Definition config_payload_open : M MqttLock event string :=
  s ← self;
  match CONF_PAYLOAD_OPEN (_config s) with
  | Some p => ret p
  | None => raise KeyError
  end.

(** [self.async_publish(topic, payload, qos, retain, encoding)] with the
    topic, QoS, retain flag and encoding of the configuration. *)
Definition publish (payload : string) : M MqttLock event unit :=
  s ← self;
  call (async_publish (CONF_COMMAND_TOPIC (_config s)) payload
          (CONF_QOS (_config s)) (CONF_RETAIN (_config s))
          (CONF_ENCODING (_config s))).

(** [async_lock()] *)
Definition async_lock : M MqttLock event unit :=
  s ← self;
  publish (CONF_PAYLOAD_LOCK (_config s));;
  s ← self;
  when (_optimistic s)
    (* Optimistically assume that the lock has changed state. *)
    (assign (set_state true);; write_ha_state).

(** [async_unlock()] *)
Definition async_unlock : M MqttLock event unit :=
  s ← self;
  publish (CONF_PAYLOAD_UNLOCK (_config s));;
  s ← self;
  when (_optimistic s)
    (* Optimistically assume that the lock has changed state. *)
    (assign (set_state false);; write_ha_state).

(** [async_open()]: the arguments of the publish are evaluated first, so a
    missing [CONF_PAYLOAD_OPEN] raises before anything is sent. *)
Definition async_open : M MqttLock event unit :=
  payload ← config_payload_open;
  publish payload;;
  s ← self;
  when (_optimistic s)
    (* Optimistically assume that the lock unlocks when opened. *)
    (assign (set_state false);; write_ha_state).

(** The publishes among the outward calls. *)
Definition is_publish (ev : event) : bool :=
  match ev with
  | async_publish _ _ _ _ _ => true
  | _ => false
  end.

Definition publishes (tr : list event) : list event :=
  List.filter is_publish tr.

(** What the lock publishes for a payload. *)
Definition sent (s : MqttLock) (payload : string) : event :=
  async_publish (CONF_COMMAND_TOPIC (_config s)) payload
    (CONF_QOS (_config s)) (CONF_RETAIN (_config s))
    (CONF_ENCODING (_config s)).

(** A command that publishes [payload] and, in optimistic mode, assumes the
    lock state [b]. *)
Definition command_outcome (payload : string) (b : bool) (s : MqttLock)
  : outcome unit * MqttLock * list event :=
  if _optimistic s
  then (Return tt, set_state b s,
        [sent s payload; async_write_ha_state b true])
  else (Return tt, s, [sent s payload]).

(** A lock as the platform sets it up: [__init__], [_setup_from_config],
    then [_prepare_subscribe_topics]. *)
Definition setup (render : option string -> string -> string) (cfg : config)
  : MqttLock :=
  after (run (_setup_from_config render cfg;; _prepare_subscribe_topics)
           (__init__ cfg)).

(** A front-door lock that reports its state on a state topic, and a
    back-door lock that has no state topic. *)
Definition front_door_config : config :=
  {| CONF_COMMAND_TOPIC := "home/frontdoor/set";
     CONF_STATE_TOPIC := Some "home/frontdoor/state";
     CONF_QOS := 1;
     CONF_RETAIN := false;
     CONF_ENCODING := "utf-8";
     CONF_OPTIMISTIC := DEFAULT_OPTIMISTIC;
     CONF_PAYLOAD_LOCK := DEFAULT_PAYLOAD_LOCK;
     CONF_PAYLOAD_UNLOCK := DEFAULT_PAYLOAD_UNLOCK;
     CONF_PAYLOAD_OPEN := Some DEFAULT_PAYLOAD_OPEN;
     CONF_STATE_LOCKED := DEFAULT_STATE_LOCKED;
     CONF_STATE_UNLOCKED := DEFAULT_STATE_UNLOCKED;
     CONF_VALUE_TEMPLATE := None |}.

Definition blind_door_config : config :=
  {| CONF_COMMAND_TOPIC := "home/backdoor/set";
     CONF_STATE_TOPIC := None;
     CONF_QOS := 0;
     CONF_RETAIN := true;
     CONF_ENCODING := "utf-8";
     CONF_OPTIMISTIC := DEFAULT_OPTIMISTIC;
     CONF_PAYLOAD_LOCK := DEFAULT_PAYLOAD_LOCK;
     CONF_PAYLOAD_UNLOCK := DEFAULT_PAYLOAD_UNLOCK;
     CONF_PAYLOAD_OPEN := Some DEFAULT_PAYLOAD_OPEN;
     CONF_STATE_LOCKED := DEFAULT_STATE_LOCKED;
     CONF_STATE_UNLOCKED := DEFAULT_STATE_UNLOCKED;
     CONF_VALUE_TEMPLATE := None |}.

(** With no value template the renderer hands the payload through. *)
Definition no_template (template : option string) (payload : string) : string :=
  payload.

Definition front_door : MqttLock := setup no_template front_door_config.
Definition blind_door : MqttLock := setup no_template blind_door_config.

End Lock.

(** ** The Plugwise gateway (plugwise/) *)

Module Plugwise.

(** [coordinator.data]: what the last poll of the gateway returned.
    [gateway] is a [dict[str, Any]], [devices] a [dict[str, dict[str, Any]]]
    keyed by device id. *)
Record GatewayData : Type := {
  gateway : gmap string pyval;
  devices : gmap string (gmap string pyval)
}.

(** The outward calls of the Plugwise entities: the methods of
    [coordinator.api] (the vendor client), and the base class's
    [_handle_coordinator_update], which hands the refreshed state to the
    platform. *)
Inductive event : Type :=
| set_temperature (loc_id temperature : pyval)
| set_preset (loc_id : pyval) (preset_mode : string)
| set_switch_state (dev_id : string) (members : pyval) (key state : string)
| super_handle_coordinator_update.

End Plugwise.

(** ** The Plugwise thermostat (plugwise/climate.py)

    The methods are embedded as their bodies.  The decorator
    [plugwise_command] around the commands comes from util.py, which is not
    among the sources. *)

Module Climate.
Import Plugwise.

(** Modelled from the spec: the constants that climate.py imports from
    homeassistant/components/climate/const.py and homeassistant/const.py,
    files that are not among the sources, with the values by which the
    HVAC actions and modes are described: heating, cooling, idle; heat,
    cool, auto, off; and the keyword temperature of the service call. *)
Definition CURRENT_HVAC_COOL : string := "cooling".
Definition CURRENT_HVAC_HEAT : string := "heating".
Definition CURRENT_HVAC_IDLE : string := "idle".
Definition HVAC_MODE_AUTO : string := "auto".
Definition HVAC_MODE_COOL : string := "cool".
Definition HVAC_MODE_HEAT : string := "heat".
Definition HVAC_MODE_OFF : string := "off".
Definition ATTR_TEMPERATURE : string := "temperature".

Definition HVAC_MODES_HEAT_ONLY : list string :=
  [HVAC_MODE_HEAT; HVAC_MODE_AUTO; HVAC_MODE_OFF].
Definition HVAC_MODES_HEAT_COOL : list string :=
  [HVAC_MODE_HEAT; HVAC_MODE_COOL; HVAC_MODE_AUTO; HVAC_MODE_OFF].
Definition THERMOSTAT_CLASSES : list string :=
  ["thermostat"; "zone_thermostat"; "thermostatic_radiator_valve"].

(** The attributes of a [PlugwiseClimateEntity] that its methods read or
    assign.  [_attr_max_temp] and [_attr_min_temp] are the class attributes
    set from [DEFAULT_MAX_TEMP] and [DEFAULT_MIN_TEMP]. *)
Record PlugwiseClimateEntity : Type := {
  _dev_id : string;
  _loc_id : pyval;
  _attr_max_temp : pynum;
  _attr_min_temp : pynum;
  _attr_target_temperature : pyval;
  _attr_current_temperature : pyval;
  _attr_preset_mode : pyval;
  _attr_preset_modes : pyval;
  _attr_hvac_action : pyval;
  _attr_hvac_modes : list string;
  _attr_hvac_mode : pyval;
  _attr_extra_state_attributes : list (string * pyval)
}.

(** [self._attr_target_temperature = v] *)
Definition set_target_temperature (v : pyval) (s : PlugwiseClimateEntity) : PlugwiseClimateEntity :=
  {| _dev_id := _dev_id s;
     _loc_id := _loc_id s;
     _attr_max_temp := _attr_max_temp s;
     _attr_min_temp := _attr_min_temp s;
     _attr_target_temperature := v;
     _attr_current_temperature := _attr_current_temperature s;
     _attr_preset_mode := _attr_preset_mode s;
     _attr_preset_modes := _attr_preset_modes s;
     _attr_hvac_action := _attr_hvac_action s;
     _attr_hvac_modes := _attr_hvac_modes s;
     _attr_hvac_mode := _attr_hvac_mode s;
     _attr_extra_state_attributes := _attr_extra_state_attributes s |}.

(** [self._attr_current_temperature = v] *)
Definition set_current_temperature (v : pyval) (s : PlugwiseClimateEntity) : PlugwiseClimateEntity :=
  {| _dev_id := _dev_id s;
     _loc_id := _loc_id s;
     _attr_max_temp := _attr_max_temp s;
     _attr_min_temp := _attr_min_temp s;
     _attr_target_temperature := _attr_target_temperature s;
     _attr_current_temperature := v;
     _attr_preset_mode := _attr_preset_mode s;
     _attr_preset_modes := _attr_preset_modes s;
     _attr_hvac_action := _attr_hvac_action s;
     _attr_hvac_modes := _attr_hvac_modes s;
     _attr_hvac_mode := _attr_hvac_mode s;
     _attr_extra_state_attributes := _attr_extra_state_attributes s |}.

(** [self._attr_preset_mode = v] *)
Definition set_preset_mode (v : pyval) (s : PlugwiseClimateEntity) : PlugwiseClimateEntity :=
  {| _dev_id := _dev_id s;
     _loc_id := _loc_id s;
     _attr_max_temp := _attr_max_temp s;
     _attr_min_temp := _attr_min_temp s;
     _attr_target_temperature := _attr_target_temperature s;
     _attr_current_temperature := _attr_current_temperature s;
     _attr_preset_mode := v;
     _attr_preset_modes := _attr_preset_modes s;
     _attr_hvac_action := _attr_hvac_action s;
     _attr_hvac_modes := _attr_hvac_modes s;
     _attr_hvac_mode := _attr_hvac_mode s;
     _attr_extra_state_attributes := _attr_extra_state_attributes s |}.

(** [self._attr_preset_modes = v] *)
Definition set_preset_modes (v : pyval) (s : PlugwiseClimateEntity) : PlugwiseClimateEntity :=
  {| _dev_id := _dev_id s;
     _loc_id := _loc_id s;
     _attr_max_temp := _attr_max_temp s;
     _attr_min_temp := _attr_min_temp s;
     _attr_target_temperature := _attr_target_temperature s;
     _attr_current_temperature := _attr_current_temperature s;
     _attr_preset_mode := _attr_preset_mode s;
     _attr_preset_modes := v;
     _attr_hvac_action := _attr_hvac_action s;
     _attr_hvac_modes := _attr_hvac_modes s;
     _attr_hvac_mode := _attr_hvac_mode s;
     _attr_extra_state_attributes := _attr_extra_state_attributes s |}.

(** [self._attr_hvac_action = v] *)
Definition set_hvac_action (v : pyval) (s : PlugwiseClimateEntity) : PlugwiseClimateEntity :=
  {| _dev_id := _dev_id s;
     _loc_id := _loc_id s;
     _attr_max_temp := _attr_max_temp s;
     _attr_min_temp := _attr_min_temp s;
     _attr_target_temperature := _attr_target_temperature s;
     _attr_current_temperature := _attr_current_temperature s;
     _attr_preset_mode := _attr_preset_mode s;
     _attr_preset_modes := _attr_preset_modes s;
     _attr_hvac_action := v;
     _attr_hvac_modes := _attr_hvac_modes s;
     _attr_hvac_mode := _attr_hvac_mode s;
     _attr_extra_state_attributes := _attr_extra_state_attributes s |}.

(** [self._attr_hvac_modes = v] *)
Definition set_hvac_modes (v : list string) (s : PlugwiseClimateEntity) : PlugwiseClimateEntity :=
  {| _dev_id := _dev_id s;
     _loc_id := _loc_id s;
     _attr_max_temp := _attr_max_temp s;
     _attr_min_temp := _attr_min_temp s;
     _attr_target_temperature := _attr_target_temperature s;
     _attr_current_temperature := _attr_current_temperature s;
     _attr_preset_mode := _attr_preset_mode s;
     _attr_preset_modes := _attr_preset_modes s;
     _attr_hvac_action := _attr_hvac_action s;
     _attr_hvac_modes := v;
     _attr_hvac_mode := _attr_hvac_mode s;
     _attr_extra_state_attributes := _attr_extra_state_attributes s |}.

(** [self._attr_hvac_mode = v] *)
Definition set_hvac_mode (v : pyval) (s : PlugwiseClimateEntity) : PlugwiseClimateEntity :=
  {| _dev_id := _dev_id s;
     _loc_id := _loc_id s;
     _attr_max_temp := _attr_max_temp s;
     _attr_min_temp := _attr_min_temp s;
     _attr_target_temperature := _attr_target_temperature s;
     _attr_current_temperature := _attr_current_temperature s;
     _attr_preset_mode := _attr_preset_mode s;
     _attr_preset_modes := _attr_preset_modes s;
     _attr_hvac_action := _attr_hvac_action s;
     _attr_hvac_modes := _attr_hvac_modes s;
     _attr_hvac_mode := v;
     _attr_extra_state_attributes := _attr_extra_state_attributes s |}.

(** [self._attr_extra_state_attributes = v] *)
Definition set_extra_state_attributes (v : list (string * pyval)) (s : PlugwiseClimateEntity) : PlugwiseClimateEntity :=
  {| _dev_id := _dev_id s;
     _loc_id := _loc_id s;
     _attr_max_temp := _attr_max_temp s;
     _attr_min_temp := _attr_min_temp s;
     _attr_target_temperature := _attr_target_temperature s;
     _attr_current_temperature := _attr_current_temperature s;
     _attr_preset_mode := _attr_preset_mode s;
     _attr_preset_modes := _attr_preset_modes s;
     _attr_hvac_action := _attr_hvac_action s;
     _attr_hvac_modes := _attr_hvac_modes s;
     _attr_hvac_mode := _attr_hvac_mode s;
     _attr_extra_state_attributes := v |}.

(** [v is None] *)
Definition is_None (v : pyval) : bool :=
  match v with
  | PNone => true
  | _ => false
  end.

(** [__init__(coordinator, device_id)], with the class attributes. *)
Definition __init__ (DEFAULT_MAX_TEMP DEFAULT_MIN_TEMP : pynum)
    (coordinator : GatewayData) (device_id : string)
  : option PlugwiseClimateEntity :=
  device ← devices coordinator !! device_id;
  location ← device !! "location";
  Some {| _dev_id := device_id;
          _loc_id := location;
          _attr_max_temp := DEFAULT_MAX_TEMP;
          _attr_min_temp := DEFAULT_MIN_TEMP;
          _attr_target_temperature := PNone;
          _attr_current_temperature := PNone;
          _attr_preset_mode := PNone;
          _attr_preset_modes := PNone;
          _attr_hvac_action := PNone;
          _attr_hvac_modes := HVAC_MODES_HEAT_ONLY;
          _attr_hvac_mode := PStr HVAC_MODE_HEAT;
          _attr_extra_state_attributes := [] |}.

(** The guard of [async_set_temperature]:
    [(temperature is None) or (max_temp < temperature < min_temp)].
    The chained comparison evaluates [temperature < min_temp] only when
    [max_temp < temperature] holds. *)
Definition invalid_temperature (temperature : pyval)
  : M PlugwiseClimateEntity event bool :=
  s ← self;
  if is_None temperature then ret true
  else
    above ← lift (num_lt_val (_attr_max_temp s) temperature);
    if above : bool then lift (val_lt_num temperature (_attr_min_temp s))
    else ret false.

(** [async_set_temperature] on its keyword arguments [kwargs] *)
Definition async_set_temperature (kwargs : gmap string pyval)
  : M PlugwiseClimateEntity event unit :=
  let temperature := dict_get kwargs ATTR_TEMPERATURE in
  invalid ← invalid_temperature temperature;
  if invalid : bool then raise ValueError
  else
    s ← self;
    call (set_temperature (_loc_id s) temperature).

(** [async_set_preset_mode(preset_mode)] *)
Definition async_set_preset_mode (coordinator : GatewayData)
    (preset_mode : string) : M PlugwiseClimateEntity event unit :=
  s ← self;
  data ← getitem (devices coordinator) (_dev_id s);
  if negb (truthy (dict_get data "presets")) then raise ValueError
  else call (set_preset (_loc_id s) preset_mode).

(** [_handle_coordinator_update()] *)
Definition _handle_coordinator_update (coordinator : GatewayData)
  : M PlugwiseClimateEntity event unit :=
  s ← self;
  data ← getitem (devices coordinator) (_dev_id s);
  heater_id ← getitem (gateway coordinator) "heater_id";
  heater_central_data ← getitem_val (devices coordinator) heater_id;
  (* Current & set temperatures *)
  sensors ← getitem data "sensors";
  setpoint ← lift (val_get sensors "setpoint");
  when (truthy setpoint) (assign (set_target_temperature setpoint));;
  sensors ← getitem data "sensors";
  temperature ← lift (val_get sensors "temperature");
  when (truthy temperature) (assign (set_current_temperature temperature));;
  (* Presets handling *)
  assign (set_preset_mode (dict_get data "active_preset"));;
  (let presets := dict_get data "presets" in
   if truthy presets then
     modes ← lift (to_list presets);
     assign (set_preset_modes modes)
   else assign (set_preset_mode PNone));;
  (* Determine current hvac action *)
  assign (set_hvac_action (PStr CURRENT_HVAC_IDLE));;
  (if truthy (dict_get heater_central_data "heating_state") then
     assign (set_hvac_action (PStr CURRENT_HVAC_HEAT))
   else if truthy (dict_get heater_central_data "cooling_state") then
     assign (set_hvac_action (PStr CURRENT_HVAC_COOL))
   else ret tt);;
  (* Determine hvac modes and current hvac mode *)
  assign (set_hvac_modes HVAC_MODES_HEAT_ONLY);;
  when (truthy (dict_get (gateway coordinator) "cooling_present"))
    (assign (set_hvac_modes HVAC_MODES_HEAT_COOL));;
  s ← self;
  when (in_strs (dict_get data "mode") (_attr_hvac_modes s))
    (mode ← getitem data "mode";
     assign (set_hvac_mode mode));;
  (* Extra attributes *)
  assign (set_extra_state_attributes
            [("available_schemas", dict_get data "available_schedules");
             ("selected_schema", dict_get data "selected_schedule")]);;
  call super_handle_coordinator_update.

(** The device that [gateway["heater_id"]] names, when the lookups of
    [_handle_coordinator_update] find one. *)
Definition heater_central (coordinator : GatewayData)
  : option (gmap string pyval) :=
  match gateway coordinator !! "heater_id" with
  | Some (PStr heater_id) => devices coordinator !! heater_id
  | _ => None
  end.

(** [list(v)] succeeds. *)
Definition iterable (v : pyval) : bool :=
  match v with
  | PDict _ | PList _ | PStr _ => true
  | _ => false
  end.

(** A snapshot on which the update of the entity [dev_id] runs to its end:
    the entity's device is there and has a dict of sensors, the gateway
    names a heater device that is there, and the presets, when truthy, can
    be listed. *)
Definition well_formed (coordinator : GatewayData) (dev_id : string) : bool :=
  match devices coordinator !! dev_id, heater_central coordinator with
  | Some data, Some _ =>
      match data !! "sensors" with
      | Some (PDict _) =>
          negb (truthy (dict_get data "presets"))
          || iterable (dict_get data "presets")
      | _ => false
      end
  | _, _ => false
  end.

(** [list(v)] where it succeeds. *)
Definition listed (v : pyval) : pyval :=
  match to_list v with
  | Return l => l
  | Raise _ => PNone
  end.

(** The [hvac_modes] the update computes from the gateway. *)
Definition computed_hvac_modes (coordinator : GatewayData) : list string :=
  if truthy (dict_get (gateway coordinator) "cooling_present")
  then HVAC_MODES_HEAT_COOL
  else HVAC_MODES_HEAT_ONLY.

(** The attributes the update derives, in the order climate.py assigns
    them. *)
Definition derived_attributes (s : PlugwiseClimateEntity)
  : pyval * pyval * pyval * pyval * pyval * list string * pyval
    * list (string * pyval) :=
  (_attr_target_temperature s, _attr_current_temperature s,
   _attr_preset_mode s, _attr_preset_modes s, _attr_hvac_action s,
   _attr_hvac_modes s, _attr_hvac_mode s, _attr_extra_state_attributes s).

(** A presets entry that is missing (read as [None]) or an empty
    collection. *)
Definition absent_or_empty (presets : pyval) : bool :=
  match presets with
  | PNone | PStr EmptyString | PList [] | PDict [] => true
  | _ => false
  end.

(** A thermostat and its heater, as the gateway reports them. *)
Definition living_room : gmap string pyval :=
  list_to_map
    [("name", PStr "Living room");
     ("class", PStr "zone_thermostat");
     ("location", PStr "c50f167537524366a5af7aa3942feb1e");
     ("sensors", PDict [("setpoint", PFloat (FFin 20.5));
                        ("temperature", PFloat (FFin 19.3))]);
     ("active_preset", PStr "home");
     ("presets", PDict [("home", PList [PFloat (FFin 20)]);
                        ("away", PList [PFloat (FFin 15)])]);
     ("mode", PStr "auto");
     ("available_schedules", PList [PStr "Weekschema"]);
     ("selected_schedule", PStr "Weekschema")].

(** The same thermostat on a poll that brought no setpoint and no
    presets. *)
Definition living_room_sparse : gmap string pyval :=
  list_to_map
    [("name", PStr "Living room");
     ("class", PStr "zone_thermostat");
     ("location", PStr "c50f167537524366a5af7aa3942feb1e");
     ("sensors", PDict [("temperature", PFloat (FFin 19.3))]);
     ("mode", PStr "auto")].

Definition heater : gmap string pyval :=
  list_to_map
    [("name", PStr "OpenTherm");
     ("class", PStr "heater_central");
     ("heating_state", PBool true);
     ("cooling_state", PBool true)].

Definition snapshot (thermostat : gmap string pyval) : GatewayData :=
  {| gateway := list_to_map [("heater_id", PStr "90986d591dcd426cae3ec3e8111ff730");
                             ("cooling_present", PBool false)];
     devices := list_to_map [("df4a4a8169904cdb9c03d61a21f42140", thermostat);
                             ("90986d591dcd426cae3ec3e8111ff730", heater)] |}.

(** The entity of that thermostat, with the given target temperature and
    the temperature limits 4 and 30. *)
Definition thermostat_entity (target : pyval) : PlugwiseClimateEntity :=
  {| _dev_id := "df4a4a8169904cdb9c03d61a21f42140";
     _loc_id := PStr "c50f167537524366a5af7aa3942feb1e";
     _attr_max_temp := NInt 30;
     _attr_min_temp := NInt 4;
     _attr_target_temperature := target;
     _attr_current_temperature := PNone;
     _attr_preset_mode := PNone;
     _attr_preset_modes := PNone;
     _attr_hvac_action := PNone;
     _attr_hvac_modes := HVAC_MODES_HEAT_ONLY;
     _attr_hvac_mode := PStr HVAC_MODE_HEAT;
     _attr_extra_state_attributes := [] |}.

End Climate.

(** ** The Plugwise switch (plugwise/switch.py) *)

Module Switch.
Import Plugwise.

Record SwitchEntityDescription : Type := {
  key : string;
  name : string;
  icon : string
}.

Definition SWITCHES : list SwitchEntityDescription :=
  [ {| key := "relay"; name := "Relay"; icon := "mdi:electric-switch" |} ].

(** The attributes of a [PlugwiseSwitchEntity] that its methods read. *)
Record PlugwiseSwitchEntity : Type := {
  _dev_id : string;
  entity_description : SwitchEntityDescription
}.

Section Device.

(** The [device] property, which the entity inherits from [PlugwiseEntity]
    (entity.py, not among the sources): a read of the entity's device data
    from the coordinator, which may raise. *)
Variable device :
  GatewayData -> PlugwiseSwitchEntity -> outcome (gmap string pyval).

(** [is_on] property. *)
Definition is_on (coordinator : GatewayData)
  : M PlugwiseSwitchEntity event pyval :=
  s ← self;
  dev ← lift (device coordinator s);
  switches ← getitem dev "switches";
  lift (val_get switches (key (entity_description s))).

(** [async_turn_on()] *)
Definition async_turn_on (coordinator : GatewayData)
  : M PlugwiseSwitchEntity event unit :=
  s ← self;
  dev ← lift (device coordinator s);
  call (set_switch_state (_dev_id s) (dict_get dev "members")
          (key (entity_description s)) "on").

(** [async_turn_off()] *)
Definition async_turn_off (coordinator : GatewayData)
  : M PlugwiseSwitchEntity event unit :=
  s ← self;
  dev ← lift (device coordinator s);
  call (set_switch_state (_dev_id s) (dict_get dev "members")
          (key (entity_description s)) "off").

End Device.

(** The lookup that climate.py spells out for its own device,
    [self.coordinator.data.devices[self._dev_id]], as the [device]
    property of the examples. *)
Definition devices_lookup (coordinator : GatewayData)
    (s : PlugwiseSwitchEntity) : outcome (gmap string pyval) :=
  match devices coordinator !! _dev_id s with
  | Some dev => Return dev
  | None => Raise KeyError
  end.

(** The Adam gateway of the tests: a pump relay without members. *)
Definition cv_pomp : PlugwiseSwitchEntity :=
  {| _dev_id := "78d1126fc4c743db81b61c20e88342a7";
     entity_description :=
       {| key := "relay"; name := "Relay"; icon := "mdi:electric-switch" |} |}.

Definition adam : GatewayData :=
  {| gateway := ∅;
     devices :=
       list_to_map
         [("78d1126fc4c743db81b61c20e88342a7",
           list_to_map [("name", PStr "CV Pomp");
                        ("switches", PDict [("relay", PBool true)])])] |}.

End Switch.

(** * Properties *)

(** ** The MQTT lock *)

Section LockProperties.
Import Lock.

(** Unfolds a method of the lock down to its state and trace. *)
Ltac run_lock :=
  cbv [run result after calls mbind mret M_bind M_ret bind ret raise self
       assign call when lift
       async_lock async_unlock async_open publish config_payload_open
       write_ha_state message_received _prepare_subscribe_topics
       _setup_from_config];
  cbn [fst snd app].

Lemma async_lock_run (s : MqttLock) :
  run async_lock s = command_outcome (CONF_PAYLOAD_LOCK (_config s)) true s.
Proof.
  run_lock. unfold command_outcome.
  destruct (_optimistic s) eqn:Hopt; cbn; rewrite ?Hopt; reflexivity.
Qed.

Lemma async_unlock_run (s : MqttLock) :
  run async_unlock s = command_outcome (CONF_PAYLOAD_UNLOCK (_config s)) false s.
Proof.
  run_lock. unfold command_outcome.
  destruct (_optimistic s) eqn:Hopt; cbn; rewrite ?Hopt; reflexivity.
Qed.

Lemma async_open_run (s : MqttLock) (payload : string) :
  CONF_PAYLOAD_OPEN (_config s) = Some payload ->
  run async_open s = command_outcome payload false s.
Proof.
  intros Hopen. run_lock. rewrite Hopen. unfold command_outcome.
  destruct (_optimistic s) eqn:Hopt; cbn; rewrite ?Hopt; reflexivity.
Qed.

(** Without a configured [CONF_PAYLOAD_OPEN] the lookup raises before the
    publish: nothing is sent and nothing is assigned. *)
Lemma async_open_unconfigured (s : MqttLock) :
  CONF_PAYLOAD_OPEN (_config s) = None ->
  run async_open s = (Raise KeyError, s, []).
Proof. intros Hopen. run_lock. rewrite Hopen. reflexivity. Qed.

(** [_prepare_subscribe_topics] on a configuration with no state topic. *)
Lemma prepare_without_state_topic (s : MqttLock) :
  CONF_STATE_TOPIC (_config s) = None ->
  run _prepare_subscribe_topics s = (Return tt, set_optimistic true s, []).
Proof. intros Htopic. run_lock. rewrite Htopic. reflexivity. Qed.

(** [message_received] in full: the first matching state string decides,
    and the state is written in every case. *)
Lemma message_received_run (s : MqttLock) (msg_payload : string) :
  let payload := _value_template s msg_payload in
  let s' :=
    if String.eqb payload (CONF_STATE_LOCKED (_config s)) then
      set_state true s
    else if String.eqb payload (CONF_STATE_UNLOCKED (_config s)) then
      set_state false s
    else s in
  run (message_received msg_payload) s =
  (Return tt, s', [async_write_ha_state (is_locked s') (assumed_state s')]).
Proof.
  run_lock.
  destruct (String.eqb _ (CONF_STATE_LOCKED _)); [reflexivity|].
  destruct (String.eqb _ (CONF_STATE_UNLOCKED _)); reflexivity.
Qed.

(** C2.  A lock configured without a state topic is forced into optimistic
    mode by [_prepare_subscribe_topics], so [assumed_state] is true.  In
    optimistic mode every command first publishes and then assumes the new
    state and writes it to the platform: [async_lock] leaves [is_locked]
    true, [async_unlock] and [async_open] (with its configured payload)
    leave it false.  Outside optimistic mode none of the three commands
    changes [is_locked]. *)
Theorem optimistic_bookkeeping (s : MqttLock) :
  (CONF_STATE_TOPIC (_config s) = None ->
   assumed_state (after (run _prepare_subscribe_topics s)) = true)
  /\ (assumed_state s = true ->
      (is_locked (after (run async_lock s)) = true
       /\ calls (run async_lock s) =
          [sent s (CONF_PAYLOAD_LOCK (_config s));
           async_write_ha_state true true])
      /\ (is_locked (after (run async_unlock s)) = false
          /\ calls (run async_unlock s) =
             [sent s (CONF_PAYLOAD_UNLOCK (_config s));
              async_write_ha_state false true])
      /\ (forall payload, CONF_PAYLOAD_OPEN (_config s) = Some payload ->
          is_locked (after (run async_open s)) = false
          /\ calls (run async_open s) =
             [sent s payload; async_write_ha_state false true]))
  /\ (assumed_state s = false ->
      is_locked (after (run async_lock s)) = is_locked s
      /\ is_locked (after (run async_unlock s)) = is_locked s
      /\ is_locked (after (run async_open s)) = is_locked s).
Proof.
  unfold assumed_state. split; [|split].
  - intros Htopic. rewrite (prepare_without_state_topic s Htopic). reflexivity.
  - intros Hopt. rewrite async_lock_run, async_unlock_run.
    unfold command_outcome. rewrite Hopt.
    split; [split; reflexivity|]. split; [split; reflexivity|].
    intros payload Hopen. rewrite (async_open_run s payload Hopen).
    unfold command_outcome. rewrite Hopt. split; reflexivity.
  - intros Hopt. rewrite async_lock_run, async_unlock_run.
    unfold command_outcome. rewrite Hopt. repeat split.
    destruct (CONF_PAYLOAD_OPEN (_config s)) as [payload|] eqn:Hopen.
    + rewrite (async_open_run s payload Hopen). unfold command_outcome.
      rewrite Hopt. reflexivity.
    + rewrite (async_open_unconfigured s Hopen). reflexivity.
Qed.

(** The back-door lock has no state topic: set up, it assumes its state,
    and [async_open] leaves it unlocked after one publish and one write. *)
Lemma optimistic_bookkeeping_witness :
  assumed_state blind_door = true
  /\ is_locked (after (run async_lock blind_door)) = true
  /\ calls (run async_open blind_door) =
     [async_publish "home/backdoor/set" "OPEN" 0 true "utf-8";
      async_write_ha_state false true].
Proof.
  pose proof (optimistic_bookkeeping (__init__ blind_door_config))
    as [Hforce _].
  pose proof (optimistic_bookkeeping blind_door) as [_ [Hassume _]].
  destruct (Hassume eq_refl) as [[Hlock _] [_ Hopen]].
  destruct (Hopen "OPEN"%string eq_refl) as [_ Hcalls].
  split; [exact (Hforce eq_refl)|].
  split; [exact Hlock | exact Hcalls].
Defined.

(** A lock whose configuration gives one word for both states; the
    schema asks only that each be a string. *)
Definition one_word_config : config :=
  {| CONF_COMMAND_TOPIC := "home/gate/set";
     CONF_STATE_TOPIC := Some "home/gate/state";
     CONF_QOS := 0;
     CONF_RETAIN := false;
     CONF_ENCODING := "utf-8";
     CONF_OPTIMISTIC := DEFAULT_OPTIMISTIC;
     CONF_PAYLOAD_LOCK := DEFAULT_PAYLOAD_LOCK;
     CONF_PAYLOAD_UNLOCK := DEFAULT_PAYLOAD_UNLOCK;
     CONF_PAYLOAD_OPEN := None;
     CONF_STATE_LOCKED := "CLOSED";
     CONF_STATE_UNLOCKED := "CLOSED";
     CONF_VALUE_TEMPLATE := None |}.

Definition one_word_lock : MqttLock := setup no_template one_word_config.

(** C4, as stated, fails: on the lock with one word for both states, the
    payload CLOSED equals the configured [state_unlocked], and the
    unlocked lock is locked by it. *)
Lemma message_received_same_word :
  _value_template one_word_lock "CLOSED" =
  CONF_STATE_UNLOCKED (_config one_word_lock)
  /\ is_locked one_word_lock = false
  /\ result (run (message_received "CLOSED") one_word_lock) = Return tt
  /\ is_locked (after (run (message_received "CLOSED") one_word_lock)) = true
  /\ calls (run (message_received "CLOSED") one_word_lock) =
     [async_write_ha_state true false].
Proof. repeat split. Qed.

(** C4, amended.  A message on the state topic is rendered through the
    value template and translated: a rendered payload equal to the
    configured [state_locked] makes [is_locked] true; otherwise, a rendered
    payload equal to the configured [state_unlocked] makes it false; in
    both cases the updated state is written to the platform. *)
Theorem message_received_translates (s : MqttLock) (msg_payload : string) :
  let payload := _value_template s msg_payload in
  let r := run (message_received msg_payload) s in
  (payload = CONF_STATE_LOCKED (_config s) ->
   result r = Return tt
   /\ is_locked (after r) = true
   /\ calls r = [async_write_ha_state true (assumed_state s)])
  /\ (payload <> CONF_STATE_LOCKED (_config s) ->
      payload = CONF_STATE_UNLOCKED (_config s) ->
      result r = Return tt
      /\ is_locked (after r) = false
      /\ calls r = [async_write_ha_state false (assumed_state s)]).
Proof.
  intros payload r. subst r. rewrite message_received_run.
  fold payload. split.
  - intros Heq. rewrite Heq, String.eqb_refl. repeat split.
  - intros Hother Heq. apply String.eqb_neq in Hother.
    rewrite Hother, Heq, String.eqb_refl. repeat split.
Qed.

(** The front door reports UNLOCKED while it is held locked, and the lock
    with one word for both states reports CLOSED. *)
Lemma message_received_translates_witness :
  (is_locked (after (run (message_received "UNLOCKED")
                       (set_state true front_door))) = false
   /\ calls (run (message_received "UNLOCKED") (set_state true front_door)) =
      [async_write_ha_state false false])
  /\ is_locked (after (run (message_received "CLOSED") one_word_lock)) = true.
Proof.
  destruct (message_received_translates (set_state true front_door)
              "UNLOCKED") as [_ Hunlocked].
  destruct (message_received_translates one_word_lock "CLOSED")
    as [Hlocked _].
  assert (Hother : _value_template (set_state true front_door) "UNLOCKED"
                   <> CONF_STATE_LOCKED (_config (set_state true front_door)))
    by discriminate.
  destruct (Hunlocked Hother eq_refl) as [_ [Hstate Hcalls]].
  split; [split; [exact Hstate | exact Hcalls]|].
  exact (proj1 (proj2 (Hlocked eq_refl))).
Defined.

(** When the two state strings coincide the locked branch is the one
    taken. *)
Lemma message_received_locked_first (s : MqttLock) (msg_payload : string) :
  _value_template s msg_payload = CONF_STATE_LOCKED (_config s) ->
  is_locked (after (run (message_received msg_payload) s)) = true.
Proof.
  intros Heq. rewrite message_received_run, Heq, String.eqb_refl.
  reflexivity.
Qed.

(** C6.  Each lock command makes exactly one MQTT publish, on the
    configured command topic with the configured QoS, retain flag and
    encoding: [async_lock] publishes the configured [payload_lock],
    [async_unlock] the configured [payload_unlock], and [async_open] the
    configured [payload_open]. *)
Theorem lock_commands_publish_once (s : MqttLock) :
  let cfg := _config s in
  let published payload :=
    [async_publish (CONF_COMMAND_TOPIC cfg) payload (CONF_QOS cfg)
       (CONF_RETAIN cfg) (CONF_ENCODING cfg)] in
  (result (run async_lock s) = Return tt
   /\ publishes (calls (run async_lock s)) = published (CONF_PAYLOAD_LOCK cfg))
  /\ (result (run async_unlock s) = Return tt
      /\ publishes (calls (run async_unlock s)) =
         published (CONF_PAYLOAD_UNLOCK cfg))
  /\ (forall payload_open, CONF_PAYLOAD_OPEN cfg = Some payload_open ->
      result (run async_open s) = Return tt
      /\ publishes (calls (run async_open s)) = published payload_open).
Proof.
  intros cfg published. subst cfg published. cbv beta.
  rewrite async_lock_run, async_unlock_run. unfold command_outcome.
  split; [|split].
  - destruct (_optimistic s); split; reflexivity.
  - destruct (_optimistic s); split; reflexivity.
  - intros payload_open Hopen. rewrite (async_open_run s payload_open Hopen).
    unfold command_outcome. destruct (_optimistic s); split; reflexivity.
Qed.

(** The front door's [async_open] publishes OPEN once, with QoS 1 and no
    retain. *)
Lemma lock_commands_publish_once_witness :
  publishes (calls (run async_open front_door)) =
  [async_publish "home/frontdoor/set" "OPEN" 1 false "utf-8"].
Proof.
  destruct (lock_commands_publish_once front_door) as [_ [_ Hopen]].
  exact (proj2 (Hopen "OPEN"%string eq_refl)).
Defined.

(** C9.  A message whose rendered payload is neither the configured
    [state_locked] nor the configured [state_unlocked] leaves the lock as
    it was; the unchanged state is still written to the platform. *)
Theorem message_received_other (s : MqttLock) (msg_payload : string) :
  _value_template s msg_payload <> CONF_STATE_LOCKED (_config s) ->
  _value_template s msg_payload <> CONF_STATE_UNLOCKED (_config s) ->
  let r := run (message_received msg_payload) s in
  result r = Return tt
  /\ is_locked (after r) = is_locked s
  /\ after r = s
  /\ calls r = [async_write_ha_state (is_locked s) (assumed_state s)].
Proof.
  intros Hlocked Hunlocked r. subst r. rewrite message_received_run.
  apply String.eqb_neq in Hlocked, Hunlocked.
  cbv zeta. rewrite Hlocked, Hunlocked. repeat split.
Qed.

(** The front door, held locked, stays locked on a JAMMED report. *)
Lemma message_received_other_witness :
  is_locked (after (run (message_received "JAMMED")
                      (set_state true front_door))) = true
  /\ calls (run (message_received "JAMMED") (set_state true front_door)) =
     [async_write_ha_state true false].
Proof.
  assert (Hl : _value_template (set_state true front_door) "JAMMED"
               <> CONF_STATE_LOCKED (_config (set_state true front_door)))
    by discriminate.
  assert (Hu : _value_template (set_state true front_door) "JAMMED"
               <> CONF_STATE_UNLOCKED (_config (set_state true front_door)))
    by discriminate.
  destruct (message_received_other (set_state true front_door) "JAMMED"
              Hl Hu) as [_ [Hstate [_ Hcalls]]].
  split; [exact Hstate | exact Hcalls].
Defined.

End LockProperties.

(** ** The Plugwise thermostat *)

Section ClimateProperties.
Import Plugwise Climate.

Ltac run_climate :=
  cbv [run result after calls mbind mret M_bind M_ret bind ret raise self
       assign call when lift getitem getitem_val
       _handle_coordinator_update async_set_temperature invalid_temperature
       async_set_preset_mode];
  cbn [fst snd app].

Lemma dict_get_lookup (d : gmap string pyval) (k : string) (v : pyval) :
  d !! k = Some v -> dict_get d k = v.
Proof. unfold dict_get. intros ->. reflexivity. Qed.

Lemma dict_get_missing (d : gmap string pyval) (k : string) :
  d !! k = None -> dict_get d k = PNone.
Proof. unfold dict_get. intros ->. reflexivity. Qed.

Lemma in_strs_None (l : list string) : in_strs PNone l = false.
Proof. induction l as [|x l IH]; [reflexivity | exact IH]. Qed.

(** A value found in a list of strings was stored under its key. *)
Lemma in_strs_lookup (d : gmap string pyval) (k : string) (l : list string) :
  in_strs (dict_get d k) l = true -> d !! k = Some (dict_get d k).
Proof.
  unfold dict_get. destruct (d !! k) as [v|]; cbn [default].
  - reflexivity.
  - rewrite in_strs_None. discriminate.
Qed.

(** What [well_formed] says, spelled out. *)
Lemma well_formed_inv (coordinator : GatewayData) (dev_id : string) :
  well_formed coordinator dev_id = true ->
  exists data heater_data sensors,
    devices coordinator !! dev_id = Some data
    /\ heater_central coordinator = Some heater_data
    /\ data !! "sensors" = Some (PDict sensors)
    /\ (truthy (dict_get data "presets") = true ->
        iterable (dict_get data "presets") = true).
Proof.
  unfold well_formed. intros Hwf.
  destruct (devices coordinator !! dev_id) as [data|] eqn:Hdata;
    [|discriminate].
  destruct (heater_central coordinator) as [heater_data|]; [|discriminate].
  destruct (data !! "sensors") as [[| | | | | |sensors]|] eqn:Hsensors;
    try discriminate.
  exists data, heater_data, sensors.
  split; [reflexivity|]. split; [reflexivity|]. split; [exact Hsensors|].
  intros Htruthy. rewrite Htruthy in Hwf. exact Hwf.
Qed.

(** The update on a well-formed snapshot, attribute by attribute. *)
Lemma update_run (coordinator : GatewayData) (s : PlugwiseClimateEntity)
    (data heater_data : gmap string pyval) (sensors : list (string * pyval)) :
  devices coordinator !! _dev_id s = Some data ->
  heater_central coordinator = Some heater_data ->
  data !! "sensors" = Some (PDict sensors) ->
  (truthy (dict_get data "presets") = true ->
   iterable (dict_get data "presets") = true) ->
  let setpoint := default PNone (assoc sensors "setpoint") in
  let temperature := default PNone (assoc sensors "temperature") in
  let presets := dict_get data "presets" in
  let modes := computed_hvac_modes coordinator in
  run (_handle_coordinator_update coordinator) s =
  (Return tt,
   {| _dev_id := _dev_id s;
      _loc_id := _loc_id s;
      _attr_max_temp := _attr_max_temp s;
      _attr_min_temp := _attr_min_temp s;
      _attr_target_temperature :=
        if truthy setpoint then setpoint else _attr_target_temperature s;
      _attr_current_temperature :=
        if truthy temperature then temperature
        else _attr_current_temperature s;
      _attr_preset_mode :=
        if truthy presets then dict_get data "active_preset" else PNone;
      _attr_preset_modes :=
        if truthy presets then listed presets else _attr_preset_modes s;
      _attr_hvac_action :=
        PStr (if truthy (dict_get heater_data "heating_state")
              then CURRENT_HVAC_HEAT
              else if truthy (dict_get heater_data "cooling_state")
                   then CURRENT_HVAC_COOL
                   else CURRENT_HVAC_IDLE);
      _attr_hvac_modes := modes;
      _attr_hvac_mode :=
        if in_strs (dict_get data "mode") modes then dict_get data "mode"
        else _attr_hvac_mode s;
      _attr_extra_state_attributes :=
        [("available_schemas", dict_get data "available_schedules");
         ("selected_schema", dict_get data "selected_schedule")] |},
   [super_handle_coordinator_update]).
Proof.
  intros Hdata Hheater Hsensors Hpresets.
  unfold heater_central in Hheater.
  destruct (gateway coordinator !! "heater_id")
    as [[| | | |heater_id| |]|] eqn:Hgateway; try discriminate.
  run_climate.
  rewrite Hdata; cbv beta iota.
  rewrite Hgateway; cbv beta iota.
  rewrite Hheater; cbv beta iota.
  rewrite Hsensors; cbv beta iota.
  cbn [val_get].
  unfold computed_hvac_modes, listed.
  destruct (truthy (default PNone (assoc sensors "setpoint")));
    destruct (truthy (default PNone (assoc sensors "temperature")));
    cbv beta iota.
  all: destruct (truthy (dict_get data "presets")) eqn:Htruthy;
    [ specialize (Hpresets eq_refl);
      destruct (to_list (dict_get data "presets")) as [listing|e] eqn:Hlist;
      [ | destruct (dict_get data "presets"); discriminate ]
    | ];
    cbv beta iota.
  all: destruct (truthy (dict_get heater_data "heating_state"));
    destruct (truthy (dict_get heater_data "cooling_state"));
    destruct (truthy (dict_get (gateway coordinator) "cooling_present"));
    cbv beta iota;
    cbn [_attr_hvac_modes set_hvac_modes].
  all: match goal with
       | |- context [in_strs ?v ?l] =>
           destruct (in_strs v l) eqn:Hin;
           [ rewrite (in_strs_lookup _ _ _ Hin) | ]
       end;
    reflexivity.
Qed.



(** The full poll of the living room, attribute by attribute. *)
Example living_room_update :
  derived_attributes
    (after (run (_handle_coordinator_update (snapshot living_room))
              (thermostat_entity PNone))) =
  (PFloat (FFin 20.5), PFloat (FFin 19.3), PStr "home",
   PList [PStr "home"; PStr "away"], PStr "heating",
   ["heat"; "auto"; "off"]%string, PStr "auto",
   [("available_schemas"%string, PList [PStr "Weekschema"]);
    ("selected_schema"%string, PStr "Weekschema")]).
Proof. reflexivity. Qed.

(** C1.  On every snapshot that holds the entity's device and the heater
    the gateway names, the update derives the HVAC action from the heater:
    heating when its [heating_state] is truthy, otherwise cooling when its
    [cooling_state] is truthy, otherwise idle; heating wins when both are
    set. *)
Theorem hvac_action_derivation (coordinator : GatewayData)
    (s : PlugwiseClimateEntity) (heater_data : gmap string pyval) :
  well_formed coordinator (_dev_id s) = true ->
  heater_central coordinator = Some heater_data ->
  let r := run (_handle_coordinator_update coordinator) s in
  result r = Return tt
  /\ _attr_hvac_action (after r) =
     PStr (if truthy (dict_get heater_data "heating_state")
           then CURRENT_HVAC_HEAT
           else if truthy (dict_get heater_data "cooling_state")
                then CURRENT_HVAC_COOL
                else CURRENT_HVAC_IDLE).
Proof.
  intros Hwf Hheater r. subst r.
  destruct (well_formed_inv _ _ Hwf)
    as (data & heater' & sensors & Hdata & Hheater' & Hsensors & Hpresets).
  rewrite (update_run _ _ _ _ _ Hdata Hheater Hsensors Hpresets).
  split; reflexivity.
Qed.

(** The heater of the example reports heating and cooling at once: the
    action is heating. *)
Lemma hvac_action_derivation_witness :
  _attr_hvac_action
    (after (run (_handle_coordinator_update (snapshot living_room))
              (thermostat_entity PNone))) = PStr "heating".
Proof.
  exact (proj2 (hvac_action_derivation (snapshot living_room)
                  (thermostat_entity PNone) heater eq_refl eq_refl)).
Defined.

(** C5.  On every such snapshot the update sets the HVAC modes to
    heat, auto, off, or to heat, cool, auto, off when the gateway reports a
    truthy [cooling_present]; the HVAC mode then becomes the device's
    reported mode when that mode is in the computed list, and keeps its
    previous value otherwise. *)
Theorem hvac_modes_and_mode (coordinator : GatewayData)
    (s : PlugwiseClimateEntity) (data : gmap string pyval) :
  well_formed coordinator (_dev_id s) = true ->
  devices coordinator !! _dev_id s = Some data ->
  let r := run (_handle_coordinator_update coordinator) s in
  let modes :=
    if truthy (dict_get (gateway coordinator) "cooling_present")
    then [HVAC_MODE_HEAT; HVAC_MODE_COOL; HVAC_MODE_AUTO; HVAC_MODE_OFF]
    else [HVAC_MODE_HEAT; HVAC_MODE_AUTO; HVAC_MODE_OFF] in
  result r = Return tt
  /\ _attr_hvac_modes (after r) = modes
  /\ _attr_hvac_mode (after r) =
     if in_strs (dict_get data "mode") modes then dict_get data "mode"
     else _attr_hvac_mode s.
Proof.
  intros Hwf Hdata r modes. subst r modes.
  destruct (well_formed_inv _ _ Hwf)
    as (data' & heater_data & sensors & Hdata' & Hheater & Hsensors & Hpresets).
  rewrite Hdata in Hdata'. injection Hdata' as <-.
  rewrite (update_run _ _ _ _ _ Hdata Hheater Hsensors Hpresets).
  repeat split.
Qed.

(** The living room reports the mode auto on a gateway without cooling. *)
Lemma hvac_modes_and_mode_witness :
  _attr_hvac_modes
    (after (run (_handle_coordinator_update (snapshot living_room))
              (thermostat_entity PNone))) = ["heat"; "auto"; "off"]%string
  /\ _attr_hvac_mode
       (after (run (_handle_coordinator_update (snapshot living_room))
                 (thermostat_entity PNone))) = PStr "auto".
Proof.
  exact (proj2 (hvac_modes_and_mode (snapshot living_room)
                  (thermostat_entity PNone) living_room eq_refl eq_refl)).
Defined.

(** No float lies above [hi] and below [lo] when [lo <= hi]. *)
Lemma float_guard (lo hi t : pyfloat) :
  float_le lo hi = true -> float_lt hi t = true -> float_lt t lo = true ->
  False.
Proof.
  destruct lo as [| |lo|], hi as [| |hi|], t as [| |t|]; cbn;
    try discriminate.
  unfold Qlt_bool. intros Hle Hhi Hlo.
  apply Qle_bool_iff in Hle.
  apply negb_true_iff in Hhi, Hlo.
  assert (Hht : (hi < t)%Q).
  { apply Qnot_le_lt. intros Hc. apply Qle_bool_iff in Hc. congruence. }
  assert (Htl : (t < lo)%Q).
  { apply Qnot_le_lt. intros Hc. apply Qle_bool_iff in Hc. congruence. }
  apply (Qlt_irrefl lo).
  apply Qle_lt_trans with hi; [exact Hle|].
  apply Qlt_trans with t; assumption.
Qed.

(** The chained comparison [hi < t < lo] is false whenever [lo <= hi]. *)
Lemma guard_unsatisfiable (lo hi t : pynum) :
  num_le lo hi = true -> num_lt hi t && num_lt t lo = false.
Proof.
  unfold num_le, num_lt. intros Hle.
  destruct (float_lt (to_float hi) (to_float t)) eqn:Hhi; [|reflexivity].
  destruct (float_lt (to_float t) (to_float lo)) eqn:Hlo; [|reflexivity].
  destruct (float_guard _ _ _ Hle Hhi Hlo).
Qed.

(** [async_set_temperature] on each kind of [temperature] argument. *)
Lemma set_temperature_None (s : PlugwiseClimateEntity)
    (kwargs : gmap string pyval) :
  dict_get kwargs ATTR_TEMPERATURE = PNone ->
  run (async_set_temperature kwargs) s = (Raise ValueError, s, []).
Proof. intros Hnone. run_climate. rewrite Hnone. reflexivity. Qed.

Lemma set_temperature_number (s : PlugwiseClimateEntity)
    (kwargs : gmap string pyval) (n : pynum) :
  num_le (_attr_min_temp s) (_attr_max_temp s) = true ->
  as_num (dict_get kwargs ATTR_TEMPERATURE) = Some n ->
  run (async_set_temperature kwargs) s =
  (Return tt, s,
   [set_temperature (_loc_id s) (dict_get kwargs ATTR_TEMPERATURE)]).
Proof.
  intros Hle Hnum.
  pose proof (guard_unsatisfiable _ _ n Hle) as Hguard.
  run_climate. unfold num_lt_val, val_lt_num. rewrite Hnum.
  destruct (dict_get kwargs ATTR_TEMPERATURE); try discriminate;
    cbn [is_None];
    destruct (num_lt (_attr_max_temp s) n); cbn in Hguard |- *;
    rewrite ?Hguard; reflexivity.
Qed.

Lemma set_temperature_other (s : PlugwiseClimateEntity)
    (kwargs : gmap string pyval) :
  dict_get kwargs ATTR_TEMPERATURE <> PNone ->
  as_num (dict_get kwargs ATTR_TEMPERATURE) = None ->
  run (async_set_temperature kwargs) s = (Raise TypeError, s, []).
Proof.
  intros Hsome Hnum. run_climate. unfold num_lt_val. rewrite Hnum.
  destruct (dict_get kwargs ATTR_TEMPERATURE); try discriminate;
    try reflexivity.
  congruence.
Qed.

(** C3.  With [min_temp <= max_temp], [async_set_temperature] raises
    [ValueError] exactly when the temperature argument is absent or
    [None].  For every number given, inside the limits or not, the guard
    [max_temp < temperature < min_temp] is false, nothing is raised, the
    entity is left as it was, and the temperature goes unchanged to
    [api.set_temperature] with the entity's location id. *)
Theorem set_temperature_guard (s : PlugwiseClimateEntity)
    (kwargs : gmap string pyval) :
  num_le (_attr_min_temp s) (_attr_max_temp s) = true ->
  let temperature := dict_get kwargs ATTR_TEMPERATURE in
  let r := run (async_set_temperature kwargs) s in
  (result r = Raise ValueError <->
   kwargs !! ATTR_TEMPERATURE = None \/ kwargs !! ATTR_TEMPERATURE = Some PNone)
  /\ (forall n : pynum, as_num temperature = Some n ->
      num_lt (_attr_max_temp s) n && num_lt n (_attr_min_temp s) = false
      /\ r = (Return tt, s, [set_temperature (_loc_id s) temperature])).
Proof.
  intros Hle temperature r. subst temperature r. split.
  - split.
    + intros Hraise.
      destruct (kwargs !! ATTR_TEMPERATURE) as [v|] eqn:Hlook; [|left; reflexivity].
      right. f_equal.
      pose proof (dict_get_lookup _ _ _ Hlook) as Hget.
      destruct (as_num v) as [n|] eqn:Hnum.
      * rewrite <- Hget in Hnum.
        rewrite (set_temperature_number s kwargs n Hle Hnum) in Hraise.
        discriminate.
      * destruct v; try discriminate Hnum; try reflexivity.
        all: rewrite set_temperature_other in Hraise;
          rewrite ?Hget; try discriminate; reflexivity.
    + intros [Hlook|Hlook]; rewrite set_temperature_None;
        try reflexivity.
      * apply dict_get_missing, Hlook.
      * apply dict_get_lookup, Hlook.
  - intros n Hnum. split.
    + apply guard_unsatisfiable, Hle.
    + apply (set_temperature_number s kwargs n Hle Hnum).
Qed.

(** A request for 100 degrees on limits of 4 and 30 is forwarded. *)
Lemma set_temperature_guard_witness :
  run (async_set_temperature {[ ATTR_TEMPERATURE := PInt 100 ]})
    (thermostat_entity PNone) =
  (Return tt, thermostat_entity PNone,
   [set_temperature (PStr "c50f167537524366a5af7aa3942feb1e") (PInt 100)]).
Proof.
  destruct (set_temperature_guard (thermostat_entity PNone)
              {[ ATTR_TEMPERATURE := PInt 100 ]} eq_refl) as [_ Hnumber].
  exact (proj2 (Hnumber (NInt 100) eq_refl)).
Defined.

(** A temperature that is no number fails in the comparison, and NaN
    passes the guard like any other float. *)
Example set_temperature_string :
  run (async_set_temperature {[ ATTR_TEMPERATURE := PStr "warm" ]})
    (thermostat_entity PNone) =
  (Raise TypeError, thermostat_entity PNone, []).
Proof. reflexivity. Qed.

Example set_temperature_nan :
  calls (run (async_set_temperature {[ ATTR_TEMPERATURE := PFloat FNan ]})
           (thermostat_entity PNone)) =
  [set_temperature (PStr "c50f167537524366a5af7aa3942feb1e") (PFloat FNan)].
Proof. reflexivity. Qed.

(** C8, as stated, fails: on a poll that brings no setpoint, two entities
    of the same thermostat that differ in their earlier target temperature
    still differ after the update of the same snapshot. *)
Lemma update_keeps_prior_target :
  result (run (_handle_coordinator_update (snapshot living_room_sparse))
            (thermostat_entity (PInt 21))) = Return tt
  /\ result (run (_handle_coordinator_update (snapshot living_room_sparse))
               (thermostat_entity (PInt 17))) = Return tt
  /\ _attr_target_temperature
       (after (run (_handle_coordinator_update (snapshot living_room_sparse))
                 (thermostat_entity (PInt 21)))) = PInt 21
  /\ _attr_target_temperature
       (after (run (_handle_coordinator_update (snapshot living_room_sparse))
                 (thermostat_entity (PInt 17)))) = PInt 17
  /\ derived_attributes
       (after (run (_handle_coordinator_update (snapshot living_room_sparse))
                 (thermostat_entity (PInt 21))))
     <> derived_attributes
          (after (run (_handle_coordinator_update (snapshot living_room_sparse))
                    (thermostat_entity (PInt 17)))).
Proof.
  repeat split; try reflexivity.
  intros Hsame. vm_compute in Hsame. discriminate Hsame.
Qed.

(** C8, amended.  Two updates of the same thermostat from arbitrary earlier
    states on the same snapshot agree on the preset mode, the HVAC action,
    the HVAC modes and the extra attributes.  The target temperature, the
    current temperature, the preset modes and the HVAC mode agree when the
    snapshot brings them (a truthy setpoint, temperature or presets; a
    reported mode among the computed HVAC modes); otherwise each update
    keeps the value its entity had before. *)
Theorem update_stateless_part (coordinator : GatewayData)
    (s1 s2 : PlugwiseClimateEntity) (data : gmap string pyval)
    (sensors : list (string * pyval)) :
  _dev_id s1 = _dev_id s2 ->
  well_formed coordinator (_dev_id s1) = true ->
  devices coordinator !! _dev_id s1 = Some data ->
  data !! "sensors" = Some (PDict sensors) ->
  let a1 := after (run (_handle_coordinator_update coordinator) s1) in
  let a2 := after (run (_handle_coordinator_update coordinator) s2) in
  let kept (provided : bool) (attr : PlugwiseClimateEntity -> pyval) :=
    if provided then attr a1 = attr a2
    else attr a1 = attr s1 /\ attr a2 = attr s2 in
  (result (run (_handle_coordinator_update coordinator) s1) = Return tt
   /\ result (run (_handle_coordinator_update coordinator) s2) = Return tt)
  /\ (_attr_preset_mode a1 = _attr_preset_mode a2
      /\ _attr_hvac_action a1 = _attr_hvac_action a2
      /\ _attr_hvac_modes a1 = _attr_hvac_modes a2
      /\ _attr_extra_state_attributes a1 = _attr_extra_state_attributes a2)
  /\ kept (truthy (default PNone (assoc sensors "setpoint")))
        _attr_target_temperature
  /\ kept (truthy (default PNone (assoc sensors "temperature")))
        _attr_current_temperature
  /\ kept (truthy (dict_get data "presets")) _attr_preset_modes
  /\ kept (in_strs (dict_get data "mode") (computed_hvac_modes coordinator))
        _attr_hvac_mode.
Proof.
  intros Hsame Hwf Hdata1 Hsensors a1 a2 kept. subst a1 a2 kept.
  destruct (well_formed_inv _ _ Hwf)
    as (data' & heater_data & sensors' & Hdata' & Hheater & _ & Hpresets).
  rewrite Hdata1 in Hdata'. injection Hdata' as <-.
  assert (Hdata2 : devices coordinator !! _dev_id s2 = Some data)
    by (rewrite <- Hsame; exact Hdata1).
  rewrite (update_run _ s1 _ _ _ Hdata1 Hheater Hsensors Hpresets).
  rewrite (update_run _ s2 _ _ _ Hdata2 Hheater Hsensors Hpresets).
  cbn [result after fst snd _attr_preset_mode _attr_hvac_action
       _attr_hvac_modes _attr_extra_state_attributes
       _attr_target_temperature _attr_current_temperature
       _attr_preset_modes _attr_hvac_mode].
  repeat split.
  - destruct (truthy (default PNone (assoc sensors "setpoint")));
      repeat split.
  - destruct (truthy (default PNone (assoc sensors "temperature")));
      repeat split.
  - destruct (truthy (dict_get data "presets")); repeat split.
  - destruct (in_strs (dict_get data "mode") (computed_hvac_modes coordinator));
      repeat split.
Qed.

(** On the full poll of the living room every attribute is brought by the
    snapshot, and the two entities agree on the target temperature. *)
Lemma update_stateless_part_witness :
  _attr_target_temperature
    (after (run (_handle_coordinator_update (snapshot living_room))
              (thermostat_entity (PInt 21))))
  = _attr_target_temperature
      (after (run (_handle_coordinator_update (snapshot living_room))
                (thermostat_entity (PInt 17)))).
Proof.
  destruct (update_stateless_part (snapshot living_room)
              (thermostat_entity (PInt 21)) (thermostat_entity (PInt 17))
              living_room
              [("setpoint"%string, PFloat (FFin 20.5));
               ("temperature"%string, PFloat (FFin 19.3))]
              eq_refl eq_refl eq_refl eq_refl)
    as (_ & _ & Htarget & _).
  exact Htarget.
Defined.

(** [async_set_preset_mode] in full, for a device that is there. *)
Lemma set_preset_mode_run (coordinator : GatewayData)
    (s : PlugwiseClimateEntity) (data : gmap string pyval)
    (preset_mode : string) :
  devices coordinator !! _dev_id s = Some data ->
  run (async_set_preset_mode coordinator preset_mode) s =
  if truthy (dict_get data "presets")
  then (Return tt, s, [set_preset (_loc_id s) preset_mode])
  else (Raise ValueError, s, []).
Proof.
  intros Hdata. run_climate. rewrite Hdata. cbv beta iota.
  destruct (truthy (dict_get data "presets")); reflexivity.
Qed.

(** A collection is falsy exactly when it is empty, and a missing entry
    reads as [None]. *)
Lemma truthy_collection (v : pyval) :
  as_num v = None -> truthy v = negb (absent_or_empty v).
Proof.
  destruct v as [| | | |str|l|d]; try discriminate; intros _.
  - reflexivity.
  - destruct str; reflexivity.
  - destruct l; reflexivity.
  - destruct d; reflexivity.
Qed.

(** C10.  For a device whose presets entry is a collection or is missing,
    [async_set_preset_mode] raises [ValueError] without a call to the
    vendor API exactly when the entry is absent or empty; otherwise it
    calls [api.set_preset] with the entity's location id and the requested
    preset mode.  The entity is left unchanged in both cases. *)
Theorem set_preset_mode_guard (coordinator : GatewayData)
    (s : PlugwiseClimateEntity) (data : gmap string pyval)
    (preset_mode : string) :
  devices coordinator !! _dev_id s = Some data ->
  as_num (dict_get data "presets") = None ->
  let r := run (async_set_preset_mode coordinator preset_mode) s in
  (result r = Raise ValueError /\ calls r = []
   <-> absent_or_empty (dict_get data "presets") = true)
  /\ (absent_or_empty (dict_get data "presets") = false ->
      result r = Return tt
      /\ calls r = [set_preset (_loc_id s) preset_mode])
  /\ after r = s.
Proof.
  intros Hdata Hcollection r. subst r.
  rewrite (set_preset_mode_run _ _ _ _ Hdata).
  rewrite (truthy_collection _ Hcollection).
  destruct (absent_or_empty (dict_get data "presets")); cbn.
  - split; [split|split]; try reflexivity; try discriminate.
    intros _. split; reflexivity.
  - split; [split|split]; try reflexivity; try discriminate.
    + intros [Hraise _]. discriminate Hraise.
    + intros _. split; reflexivity.
Qed.

(** The full poll of the living room has presets, the sparse one has
    none. *)
Lemma set_preset_mode_guard_witness :
  calls (run (async_set_preset_mode (snapshot living_room) "away")
           (thermostat_entity PNone)) =
  [set_preset (PStr "c50f167537524366a5af7aa3942feb1e") "away"]
  /\ result (run (async_set_preset_mode (snapshot living_room_sparse) "away")
               (thermostat_entity PNone)) = Raise ValueError.
Proof.
  destruct (set_preset_mode_guard (snapshot living_room)
              (thermostat_entity PNone) living_room "away" eq_refl eq_refl)
    as (_ & Hcall & _).
  destruct (set_preset_mode_guard (snapshot living_room_sparse)
              (thermostat_entity PNone) living_room_sparse "away"
              eq_refl eq_refl)
    as (Hraise & _ & _).
  split.
  - exact (proj2 (Hcall eq_refl)).
  - exact (proj1 (proj2 Hraise eq_refl)).
Defined.

End ClimateProperties.

(** ** The Plugwise switch *)

Section SwitchProperties.
Import Plugwise Switch.

(** C7.  For a switch entity whose [device] property reads the data
    [dev], [async_turn_on] makes exactly one call, [api.set_switch_state]
    with the entity's device id, the device's members, the key of the
    entity description and the state on; [async_turn_off] makes the same
    call with the state off.  Neither changes the entity. *)
Theorem switch_commands_call_api
    (device : GatewayData -> PlugwiseSwitchEntity -> outcome (gmap string pyval))
    (coordinator : GatewayData) (s : PlugwiseSwitchEntity)
    (dev : gmap string pyval) :
  device coordinator s = Return dev ->
  run (async_turn_on device coordinator) s =
  (Return tt, s,
   [set_switch_state (_dev_id s) (dict_get dev "members")
      (key (entity_description s)) "on"])
  /\ run (async_turn_off device coordinator) s =
     (Return tt, s,
      [set_switch_state (_dev_id s) (dict_get dev "members")
         (key (entity_description s)) "off"]).
Proof.
  intros Hdev.
  cbv [run async_turn_on async_turn_off mbind M_bind bind self lift call
       ret raise].
  rewrite Hdev. split; reflexivity.
Qed.

(** The calls the tests of the Adam gateway expect for the pump relay,
    which has no members. *)
Lemma switch_commands_call_api_witness :
  calls (run (async_turn_off devices_lookup adam) cv_pomp) =
  [set_switch_state "78d1126fc4c743db81b61c20e88342a7" PNone "relay" "off"]
  /\ calls (run (async_turn_on devices_lookup adam) cv_pomp) =
     [set_switch_state "78d1126fc4c743db81b61c20e88342a7" PNone "relay" "on"].
Proof.
  destruct (switch_commands_call_api devices_lookup adam cv_pomp
              (list_to_map [("name"%string, PStr "CV Pomp");
                            ("switches"%string,
                             PDict [("relay"%string, PBool true)])])
              eq_refl) as [Hon Hoff].
  split.
  - exact (f_equal calls Hoff).
  - exact (f_equal calls Hon).
Defined.

(** A device that is missing from the coordinator data: the property
    raises and no call is made. *)
Lemma switch_without_device (coordinator : GatewayData)
    (s : PlugwiseSwitchEntity) :
  devices coordinator !! _dev_id s = None ->
  run (async_turn_on devices_lookup coordinator) s = (Raise KeyError, s, []).
Proof.
  intros Hdev.
  cbv [run async_turn_on devices_lookup mbind M_bind bind self lift call
       ret raise].
  rewrite Hdev. reflexivity.
Qed.

End SwitchProperties.

(** * Beyond single calls: how the methods compose *)

(** ** Sessions of the MQTT lock

    The platform calls the lock's service methods and the MQTT client calls
    its message callback, one call after the other on the same entity.  An
    exception ends the call that raised it, not the calls that follow. *)

Module LockSession.
Import Lock.

(** One call into the lock: a service of the lock platform, or a message
    on the state topic. *)
Inductive stimulus : Type :=
| lock_service
| unlock_service
| open_service
| message (msg_payload : string).

Definition react (x : stimulus) : M MqttLock event unit :=
  match x with
  | lock_service => async_lock
  | unlock_service => async_unlock
  | open_service => async_open
  | message msg_payload => message_received msg_payload
  end.

(** The calls [xs] in order, from the entity [s] and the trace [tr]. *)
Fixpoint session (xs : list stimulus) (s : MqttLock) (tr : list event)
  : MqttLock * list event :=
  match xs with
  | [] => (s, tr)
  | x :: xs' =>
      let r := react x s tr in
      session xs' (after r) (calls r)
  end.

(** What a rendered payload reports: locked, unlocked, or nothing the lock
    recognises. *)
Definition reported (s : MqttLock) (msg_payload : string) : option bool :=
  if String.eqb (_value_template s msg_payload) (CONF_STATE_LOCKED (_config s))
  then Some true
  else if String.eqb (_value_template s msg_payload)
            (CONF_STATE_UNLOCKED (_config s))
  then Some false
  else None.

(** The lock state a call settles, if it settles one. *)
Definition settles (s : MqttLock) (x : stimulus) : option bool :=
  match x with
  | lock_service => if _optimistic s then Some true else None
  | unlock_service => if _optimistic s then Some false else None
  | open_service =>
      match CONF_PAYLOAD_OPEN (_config s) with
      | Some _ => if _optimistic s then Some false else None
      | None => None
      end
  | message msg_payload => reported s msg_payload
  end.

(** The payload a call publishes, if it publishes. *)
Definition payload_of (s : MqttLock) (x : stimulus) : option string :=
  match x with
  | lock_service => Some (CONF_PAYLOAD_LOCK (_config s))
  | unlock_service => Some (CONF_PAYLOAD_UNLOCK (_config s))
  | open_service => CONF_PAYLOAD_OPEN (_config s)
  | message _ => None
  end.

(** The entity with the lock state a call settles. *)
Definition settled (s : MqttLock) (x : stimulus) : MqttLock :=
  match settles s x with
  | Some b => set_state b s
  | None => s
  end.

(** Everything about the entity but its lock state. *)
Definition fixed_part (s : MqttLock)
  : config * bool * (string -> string) * option subscription :=
  (_config s, _optimistic s, _value_template s, _sub_state s).

(** The state writes among the outward calls. *)
Definition is_write (ev : event) : bool :=
  match ev with
  | async_write_ha_state _ _ => true
  | _ => false
  end.

End LockSession.

Section LockSessionProperties.
Import Lock LockSession.

Ltac run_react :=
  cbv [react after calls mbind mret M_bind M_ret bind ret raise self
       assign call when lift
       async_lock async_unlock async_open publish config_payload_open
       write_ha_state message_received];
  cbn [fst snd].

(** One call: the entity it leaves and what it appends to the trace. *)
Lemma react_step (x : stimulus) (s : MqttLock) (tr : list event) :
  after (react x s tr) = settled s x
  /\ calls (react x s tr) =
     tr ++ match payload_of s x with
           | Some payload => [sent s payload]
           | None => []
           end
        ++ match x, settles s x with
           | message _, _ =>
               [async_write_ha_state (is_locked (settled s x)) (_optimistic s)]
           | _, Some b => [async_write_ha_state b true]
           | _, None => []
           end.
Proof.
  unfold settled.
  destruct x as [| | |msg_payload]; cbn [settles payload_of]; run_react.
  - destruct (_optimistic s) eqn:Hopt; cbn; rewrite ?Hopt, <- ?app_assoc;
      split; reflexivity.
  - destruct (_optimistic s) eqn:Hopt; cbn; rewrite ?Hopt, <- ?app_assoc;
      split; reflexivity.
  - destruct (CONF_PAYLOAD_OPEN (_config s)) as [payload|]; cbv beta iota.
    + destruct (_optimistic s) eqn:Hopt; cbn; rewrite ?Hopt, <- ?app_assoc;
        split; reflexivity.
    + cbn. rewrite app_nil_r. split; reflexivity.
  - unfold reported.
    destruct (String.eqb _ (CONF_STATE_LOCKED _)); [split; reflexivity|].
    destruct (String.eqb _ (CONF_STATE_UNLOCKED _)); split; reflexivity.
Qed.

Lemma settled_fixed_part (s : MqttLock) (x : stimulus) :
  fixed_part (settled s x) = fixed_part s.
Proof. unfold settled. destruct (settles s x); reflexivity. Qed.

(** What a call settles and publishes depends on the fixed part only. *)
Lemma settles_fixed_part (s s' : MqttLock) (x : stimulus) :
  fixed_part s' = fixed_part s ->
  settles s' x = settles s x /\ payload_of s' x = payload_of s x.
Proof.
  unfold fixed_part. intros Hfixed.
  injection Hfixed as Hconfig Hoptimistic Htemplate _.
  destruct x; cbn [settles payload_of]; unfold reported;
    rewrite ?Hconfig, ?Hoptimistic, ?Htemplate; split; reflexivity.
Qed.

Lemma session_from (xs : list stimulus) (s0 s : MqttLock) (tr : list event) :
  fixed_part s = fixed_part s0 ->
  fixed_part (session xs s tr).1 = fixed_part s0
  /\ is_locked (session xs s tr).1 =
     fold_left (fun b x => default b (settles s0 x)) xs (is_locked s)
  /\ publishes (session xs s tr).2 =
     publishes tr
     ++ flat_map (fun x => match payload_of s0 x with
                           | Some payload => [sent s0 payload]
                           | None => []
                           end) xs.
Proof.
  revert s tr. induction xs as [|x xs IH]; intros s tr Hfixed.
  - cbn. rewrite app_nil_r. repeat split. exact Hfixed.
  - cbn [session fold_left flat_map].
    destruct (react_step x s tr) as [Hafter Hcalls].
    destruct (settles_fixed_part s0 s x Hfixed) as [Hsettles Hpayload].
    assert (Hnext : fixed_part (after (react x s tr)) = fixed_part s0)
      by (rewrite Hafter, settled_fixed_part; exact Hfixed).
    destruct (IH _ (calls (react x s tr)) Hnext) as (Hf & Hstate & Hpub).
    split; [exact Hf|]. split.
    + rewrite Hstate, Hafter. unfold settled. rewrite Hsettles.
      destruct (settles s0 x); reflexivity.
    + rewrite Hpub, Hcalls, Hpayload. unfold publishes.
      rewrite !List.filter_app, <- !app_assoc. f_equal.
      assert (Hsent : sent s = sent s0).
      { unfold sent. injection Hfixed as -> _ _ _. reflexivity. }
      rewrite Hsent.
      destruct x, (payload_of s0 _), (settles s _); reflexivity.
Qed.

(** X1.  Over any sequence of service calls and state messages the lock
    state is the one settled by the last call that settles one: a
    recognised report, or a command in optimistic mode (an open only with
    a configured payload).  A call that settles nothing leaves the state,
    and no call changes the configuration, the optimistic flag, the
    template or the subscription. *)
Theorem session_last_settles (xs : list stimulus) (s : MqttLock)
    (tr : list event) :
  fixed_part (session xs s tr).1 = fixed_part s
  /\ is_locked (session xs s tr).1 =
     fold_left (fun b x => default b (settles s x)) xs (is_locked s)
  /\ (forall (x : stimulus) (b : bool),
      settles s x = Some b ->
      is_locked (session (xs ++ [x]) s tr).1 = b).
Proof.
  destruct (session_from xs s s tr eq_refl) as (Hfixed & Hstate & _).
  split; [exact Hfixed|]. split; [exact Hstate|].
  intros x b Hsettles.
  destruct (session_from (xs ++ [x]) s s tr eq_refl) as (_ & Hlast & _).
  rewrite Hlast, fold_left_app. cbn. rewrite Hsettles. reflexivity.
Qed.

(** The front door is locked by its last report, whatever went before. *)
Lemma session_last_settles_witness :
  is_locked
    (session ([unlock_service; message "UNLOCKED"; open_service]
              ++ [message "LOCKED"]) front_door []).1 = true.
Proof.
  destruct (session_last_settles
              [unlock_service; message "UNLOCKED"; open_service]
              front_door []) as (_ & _ & Hlast).
  exact (Hlast (message "LOCKED") true eq_refl).
Defined.

(** X2.  Over any sequence of calls the lock publishes one message per
    command, in the order of the commands, each on the command topic with
    the configured QoS, retain flag and encoding; an open without a
    configured payload and a state message publish nothing. *)
Theorem session_publishes (xs : list stimulus) (s : MqttLock) :
  publishes (session xs s []).2 =
  flat_map (fun x => match payload_of s x with
                     | Some payload =>
                         [async_publish (CONF_COMMAND_TOPIC (_config s))
                            payload (CONF_QOS (_config s))
                            (CONF_RETAIN (_config s))
                            (CONF_ENCODING (_config s))]
                     | None => []
                     end) xs.
Proof.
  destruct (session_from xs s s [] eq_refl) as (_ & _ & Hpub).
  exact Hpub.
Qed.

(** X3.  Set up from its configuration and subscribed, a lock assumes its
    state exactly when the configuration asks for optimistic mode or has
    no state topic, whatever the flag was before; the lock state is kept,
    the renderer is the one of the configured template, and a subscription
    is prepared exactly for a configured state topic, an empty encoding
    being passed as none. *)
Theorem lifecycle_assumed_state
    (render : option string -> string -> string) (s : MqttLock) :
  let cfg := _config s in
  let r := run (_setup_from_config render cfg;; _prepare_subscribe_topics) s in
  let sub topic :=
    {| sub_topic := topic;
       sub_qos := CONF_QOS cfg;
       sub_encoding :=
         if String.eqb (CONF_ENCODING cfg) "" then None
         else Some (CONF_ENCODING cfg) |} in
  result r = Return tt
  /\ assumed_state (after r) =
     CONF_OPTIMISTIC cfg
     || match CONF_STATE_TOPIC cfg with Some _ => false | None => true end
  /\ is_locked (after r) = is_locked s
  /\ _value_template (after r) = render (CONF_VALUE_TEMPLATE cfg)
  /\ _sub_state (after r) =
     match CONF_STATE_TOPIC cfg with
     | Some topic => Some (sub topic)
     | None => _sub_state s
     end
  /\ calls r =
     match CONF_STATE_TOPIC cfg with
     | Some topic => [async_prepare_subscribe_topics (sub topic)]
     | None => []
     end.
Proof.
  cbv [run result after calls mbind mret M_bind M_ret bind ret raise self
       assign call _prepare_subscribe_topics _setup_from_config].
  cbn [fst snd app _config set_value_template set_optimistic].
  destruct (CONF_STATE_TOPIC (_config s)) as [topic|]; cbn.
  - rewrite orb_false_r. repeat split.
  - rewrite orb_true_r. repeat split.
Qed.

(** X4.  The lock advertises the open feature exactly when [async_open] can
    run: with the feature the call returns, without it the call raises
    [KeyError] before it publishes or assigns anything. *)
Theorem open_needs_feature (SUPPORT_OPEN : Z) (s : MqttLock) :
  SUPPORT_OPEN <> 0%Z ->
  (supported_features SUPPORT_OPEN s = SUPPORT_OPEN
   <-> result (run async_open s) = Return tt)
  /\ (supported_features SUPPORT_OPEN s = 0%Z
      <-> run async_open s = (Raise KeyError, s, [])).
Proof.
  intros Hflag. unfold supported_features.
  cbv [run result mbind mret M_bind M_ret bind ret raise self assign call
       when async_open publish config_payload_open write_ha_state].
  destruct (CONF_PAYLOAD_OPEN (_config s)) as [payload|]; cbn.
  - destruct (_optimistic s); cbn; (split; split; intros H;
      try reflexivity; try congruence; discriminate H).
  - split; split; intros H; try reflexivity; try congruence; discriminate H.
Qed.

(** The back door has an open payload, so its [async_open] returns. *)
Lemma open_needs_feature_witness :
  result (run async_open blind_door) = Return tt.
Proof.
  destruct (open_needs_feature 1 blind_door ltac:(discriminate))
    as [[Hruns _] _].
  exact (Hruns eq_refl).
Defined.

End LockSessionProperties.

(** ** The thermostat's schedule command (plugwise/climate.py) *)

Module ClimateSchedule.
Import Plugwise Climate.

(** The calls on [coordinator.api] of the command that switches the
    schedule: the ones above, and [set_schedule_state]. *)
Inductive api_call : Type :=
| gateway_call (ev : event)
| set_schedule_state (loc_id name : pyval) (state : string).

Section Schedule.

(** [SCHEDULE_OFF] and [SCHEDULE_ON] of plugwise/const.py, which is not
    among the sources. *)
Variables SCHEDULE_OFF SCHEDULE_ON : string.

(** [async_set_hvac_mode(hvac_mode)] *)
Definition async_set_hvac_mode (coordinator : GatewayData)
    (hvac_mode : string) : M PlugwiseClimateEntity api_call unit :=
  s ← self;
  climate_data ← getitem (devices coordinator) (_dev_id s);
  state ←
    (if String.eqb hvac_mode HVAC_MODE_AUTO then
       call (gateway_call
               (set_temperature (_loc_id s)
                  (dict_get climate_data "schedule_temperature")));;
       assign (set_target_temperature
                 (dict_get climate_data "schedule_temperature"));;
       ret SCHEDULE_ON
     else ret SCHEDULE_OFF);
  s ← self;
  call (set_schedule_state (_loc_id s) (dict_get climate_data "last_used")
          state).

End Schedule.

(** The identity of the entity and its temperature limits. *)
Definition identity (s : PlugwiseClimateEntity)
  : string * pyval * pynum * pynum :=
  (_dev_id s, _loc_id s, _attr_max_temp s, _attr_min_temp s).

(** A poll on which the living room runs a schedule at 17.5 degrees. *)
Definition living_room_scheduled : gmap string pyval :=
  <[ "schedule_temperature" := PFloat (FFin 17.5) ]>
    (<[ "last_used" := PStr "Weekschema" ]> living_room_sparse).

End ClimateSchedule.

Section ClimateMoreProperties.
Import Plugwise Climate ClimateSchedule.

Ltac run_update :=
  cbv [run result after calls mbind mret M_bind M_ret bind ret raise self
       assign call when lift getitem getitem_val
       _handle_coordinator_update];
  cbn [fst snd].

(** X5.  The update is idempotent: on a snapshot on which it returns, a
    second update of the same snapshot returns too and leaves the entity
    as the first one left it. *)
Theorem update_idempotent (coordinator : GatewayData)
    (s : PlugwiseClimateEntity) :
  well_formed coordinator (_dev_id s) = true ->
  let once := run (_handle_coordinator_update coordinator) s in
  let twice := run (_handle_coordinator_update coordinator) (after once) in
  result once = Return tt
  /\ result twice = Return tt
  /\ after twice = after once.
Proof.
  intros Hwf once twice. subst once twice.
  destruct (well_formed_inv _ _ Hwf)
    as (data & heater_data & sensors & Hdata & Hheater & Hsensors & Hpresets).
  rewrite (update_run _ _ _ _ _ Hdata Hheater Hsensors Hpresets).
  cbn [result after fst snd].
  match goal with
  | |- _ /\ result (run _ ?e) = _ /\ _ =>
      rewrite (update_run coordinator e data heater_data sensors
                 Hdata Hheater Hsensors Hpresets)
  end.
  cbn [result after fst snd _attr_target_temperature
       _attr_current_temperature _attr_preset_modes _attr_hvac_mode
       _dev_id _loc_id _attr_max_temp _attr_min_temp].
  split; [reflexivity|]. split; [reflexivity|].
  destruct (truthy (default PNone (assoc sensors "setpoint")));
    destruct (truthy (default PNone (assoc sensors "temperature")));
    destruct (truthy (dict_get data "presets"));
    destruct (in_strs (dict_get data "mode") (computed_hvac_modes coordinator));
    reflexivity.
Qed.

(** The sparse poll of the living room, twice. *)
Lemma update_idempotent_witness :
  after (run (_handle_coordinator_update (snapshot living_room_sparse))
           (after (run (_handle_coordinator_update
                          (snapshot living_room_sparse))
                     (thermostat_entity (PInt 21)))))
  = after (run (_handle_coordinator_update (snapshot living_room_sparse))
             (thermostat_entity (PInt 21))).
Proof.
  exact (proj2 (proj2 (update_idempotent (snapshot living_room_sparse)
                         (thermostat_entity (PInt 21)) eq_refl))).
Defined.

(** The update on a snapshot that is not well formed. *)
Lemma update_raises (coordinator : GatewayData) (s : PlugwiseClimateEntity) :
  well_formed coordinator (_dev_id s) = false ->
  let r := run (_handle_coordinator_update coordinator) s in
  result r <> Return tt
  /\ calls r = []
  /\ identity (after r) = identity s
  /\ (after r = s
      \/ exists data : gmap string pyval,
           devices coordinator !! _dev_id s = Some data
           /\ truthy (dict_get data "presets") = true
           /\ iterable (dict_get data "presets") = false
           /\ result r = Raise TypeError).
Proof.
  unfold well_formed, heater_central. run_update.
  destruct (devices coordinator !! _dev_id s) as [data|] eqn:Hdata;
    [|intros _; repeat split; try discriminate; left; reflexivity].
  destruct (gateway coordinator !! "heater_id")
    as [[| | | |heater_id| |]|];
    try (intros _; repeat split; try discriminate; left; reflexivity).
  destruct (devices coordinator !! heater_id) as [heater_data|];
    [|intros _; repeat split; try discriminate; left; reflexivity].
  destruct (data !! "sensors") as [[| | | | | |sensors]|];
    try (intros _; repeat split; try discriminate; left; reflexivity).
  cbn [val_get].
  destruct (truthy (dict_get data "presets")) eqn:Htruthy;
    [|discriminate].
  cbn [negb orb]. intros Hiter.
  assert (Hlist : to_list (dict_get data "presets") = Raise TypeError)
    by (destruct (dict_get data "presets"); try discriminate; reflexivity).
  rewrite Hlist.
  destruct (truthy (default PNone (assoc sensors "setpoint")));
    destruct (truthy (default PNone (assoc sensors "temperature")));
    cbv beta iota; cbn [result after calls fst snd].
  all: repeat split; try discriminate.
  all: right; exists data; repeat split; assumption.
Qed.

(** X6.  On every snapshot, the update leaves the entity's device id,
    location id and temperature limits alone, and it hands the state to
    the platform exactly when it runs to its end: once on a well-formed
    snapshot, never when it raises. *)
Theorem update_frame (coordinator : GatewayData) (s : PlugwiseClimateEntity) :
  let r := run (_handle_coordinator_update coordinator) s in
  identity (after r) = identity s
  /\ calls r =
     if well_formed coordinator (_dev_id s)
     then [super_handle_coordinator_update]
     else [].
Proof.
  intros r. subst r.
  destruct (well_formed coordinator (_dev_id s)) eqn:Hwf.
  - destruct (well_formed_inv _ _ Hwf)
      as (data & heater_data & sensors & Hdata & Hheater & Hsensors & Hpresets).
    rewrite (update_run _ _ _ _ _ Hdata Hheater Hsensors Hpresets).
    split; reflexivity.
  - destruct (update_raises _ _ Hwf) as (_ & Hcalls & Hidentity & _).
    split; assumption.
Qed.



(** [async_set_temperature] by the kind of its argument. *)
Lemma set_temperature_run (s : PlugwiseClimateEntity)
    (kwargs : gmap string pyval) :
  let temperature := dict_get kwargs ATTR_TEMPERATURE in
  run (async_set_temperature kwargs) s =
  match as_num temperature with
  | Some n =>
      if num_lt (_attr_max_temp s) n && num_lt n (_attr_min_temp s)
      then (Raise ValueError, s, [])
      else (Return tt, s, [set_temperature (_loc_id s) temperature])
  | None =>
      if is_None temperature then (Raise ValueError, s, [])
      else (Raise TypeError, s, [])
  end.
Proof.
  cbv [run mbind mret M_bind M_ret bind ret raise self call lift
       async_set_temperature invalid_temperature num_lt_val val_lt_num].
  destruct (dict_get kwargs ATTR_TEMPERATURE) as [|b|z|f|str|l|d];
    cbn [is_None as_num]; try reflexivity.
  all: match goal with
       | |- context [num_lt ?hi ?n && num_lt ?n ?lo] =>
           destruct (num_lt hi n); cbn [andb];
           [destruct (num_lt n lo)|]; reflexivity
       end.
Qed.

(** X8.  Whatever the temperature limits are, [async_set_temperature]
    raises [ValueError] exactly for a missing or [None] temperature and
    for a number strictly above the maximum and strictly below the
    minimum, raises [TypeError] exactly for anything else that is not a
    number, and otherwise forwards the number; the entity is never
    changed and nothing is called unless the method returns. *)
Theorem set_temperature_outcomes (s : PlugwiseClimateEntity)
    (kwargs : gmap string pyval) :
  let temperature := dict_get kwargs ATTR_TEMPERATURE in
  let r := run (async_set_temperature kwargs) s in
  let between n :=
    num_lt (_attr_max_temp s) n && num_lt n (_attr_min_temp s) in
  (result r = Raise ValueError
   <-> temperature = PNone
       \/ exists n, as_num temperature = Some n /\ between n = true)
  /\ (result r = Raise TypeError
      <-> temperature <> PNone /\ as_num temperature = None)
  /\ (result r = Return tt
      <-> exists n, as_num temperature = Some n /\ between n = false)
  /\ after r = s
  /\ calls r =
     match result r with
     | Return _ => [set_temperature (_loc_id s) temperature]
     | Raise _ => []
     end.
Proof.
  intros temperature r between. subst r between.
  rewrite set_temperature_run. fold temperature.
  destruct (as_num temperature) as [n|] eqn:Hnum.
  - assert (Hsome : temperature <> PNone)
      by (intros Hnone; rewrite Hnone in Hnum; discriminate).
    destruct (num_lt (_attr_max_temp s) n && num_lt n (_attr_min_temp s))
      eqn:Hbetween; cbn [result after calls fst snd].
    + repeat split; try discriminate; try reflexivity.
      * intros _. right. exists n. split; [reflexivity | exact Hbetween].
      * intros [_ Hnone]. discriminate Hnone.
      * intros (n' & Hn' & Hfalse). congruence.
    + repeat split; try discriminate; try reflexivity.
      * intros [Hnone|(n' & Hn' & Htrue)]; [contradiction | congruence].
      * intros [_ Hnone]. discriminate Hnone.
      * intros _. exists n. split; [reflexivity | exact Hbetween].
  - destruct (is_None temperature) eqn:Hnone;
      cbn [result after calls fst snd].
    + assert (Heq : temperature = PNone)
        by (destruct temperature; try discriminate; reflexivity).
      repeat split; try discriminate; try reflexivity.
      * intros _. left. exact Heq.
      * intros [Hsome _]. contradiction.
      * intros (n' & Hn' & _). discriminate Hn'.
    + assert (Hsome : temperature <> PNone)
        by (intros Heq; rewrite Heq in Hnone; discriminate).
      repeat split; try discriminate; try reflexivity; try assumption.
      * intros [Heq|(n' & Hn' & _)]; [contradiction | discriminate Hn'].
      * intros (n' & Hn' & _). discriminate Hn'.
Qed.

(** With the limits the wrong way round (a maximum of 4 and a minimum of
    30), a request for 20 degrees is refused. *)
Lemma set_temperature_outcomes_witness :
  result (run (async_set_temperature {[ ATTR_TEMPERATURE := PInt 20 ]})
            {| _dev_id := "df4a4a8169904cdb9c03d61a21f42140";
               _loc_id := PStr "c50f167537524366a5af7aa3942feb1e";
               _attr_max_temp := NInt 4;
               _attr_min_temp := NInt 30;
               _attr_target_temperature := PNone;
               _attr_current_temperature := PNone;
               _attr_preset_mode := PNone;
               _attr_preset_modes := PNone;
               _attr_hvac_action := PNone;
               _attr_hvac_modes := HVAC_MODES_HEAT_ONLY;
               _attr_hvac_mode := PStr HVAC_MODE_HEAT;
               _attr_extra_state_attributes := [] |}) = Raise ValueError.
Proof.
  match goal with
  | |- result (run (async_set_temperature ?k) ?e) = _ =>
      destruct (set_temperature_outcomes e k) as [[_ Hrefused] _]
  end.
  apply Hrefused. right. exists (NInt 20). split; reflexivity.
Defined.

(** [async_set_hvac_mode] in full. *)
Lemma set_hvac_mode_run (SCHEDULE_OFF SCHEDULE_ON : string)
    (coordinator : GatewayData) (s : PlugwiseClimateEntity)
    (hvac_mode : string) :
  run (async_set_hvac_mode SCHEDULE_OFF SCHEDULE_ON coordinator hvac_mode) s =
  match devices coordinator !! _dev_id s with
  | None => (Raise KeyError, s, [])
  | Some climate_data =>
      let scheduled := dict_get climate_data "schedule_temperature" in
      let last_used := dict_get climate_data "last_used" in
      if String.eqb hvac_mode HVAC_MODE_AUTO
      then (Return tt, set_target_temperature scheduled s,
            [gateway_call (set_temperature (_loc_id s) scheduled);
             set_schedule_state (_loc_id s) last_used SCHEDULE_ON])
      else (Return tt, s,
            [set_schedule_state (_loc_id s) last_used SCHEDULE_OFF])
  end.
Proof.
  cbv [run mbind mret M_bind M_ret bind ret raise self call assign getitem
       async_set_hvac_mode].
  destruct (devices coordinator !! _dev_id s) as [climate_data|];
    [|reflexivity].
  destruct (String.eqb hvac_mode HVAC_MODE_AUTO); reflexivity.
Qed.

(** X9.  For a thermostat whose device is in the data, the schedule
    command always returns and ends with one [set_schedule_state] on the
    entity's location and the device's last used schedule.  Asked for
    auto, it first sends the schedule temperature to [set_temperature]
    and takes it as target temperature, [None] included when the device
    reports none, and switches the schedule on.  Asked for anything else
    it switches the schedule off, calls nothing more and changes nothing:
    heat, cool and off are treated alike.  The HVAC mode of the entity is
    not touched either way. *)
Theorem set_hvac_mode_behaviour (SCHEDULE_OFF SCHEDULE_ON : string)
    (coordinator : GatewayData) (s : PlugwiseClimateEntity)
    (climate_data : gmap string pyval) (hvac_mode : string) :
  devices coordinator !! _dev_id s = Some climate_data ->
  let r :=
    run (async_set_hvac_mode SCHEDULE_OFF SCHEDULE_ON coordinator hvac_mode)
      s in
  let scheduled := dict_get climate_data "schedule_temperature" in
  let last_used := dict_get climate_data "last_used" in
  result r = Return tt
  /\ _attr_hvac_mode (after r) = _attr_hvac_mode s
  /\ (hvac_mode = HVAC_MODE_AUTO ->
      after r = set_target_temperature scheduled s
      /\ calls r =
         [gateway_call (set_temperature (_loc_id s) scheduled);
          set_schedule_state (_loc_id s) last_used SCHEDULE_ON])
  /\ (hvac_mode <> HVAC_MODE_AUTO ->
      after r = s
      /\ calls r = [set_schedule_state (_loc_id s) last_used SCHEDULE_OFF]).
Proof.
  intros Hdata r scheduled last_used. subst r scheduled last_used.
  rewrite set_hvac_mode_run, Hdata. cbv zeta.
  destruct (String.eqb_spec hvac_mode HVAC_MODE_AUTO) as [Hauto|Hother].
  - split; [reflexivity|]. split; [reflexivity|]. split.
    + intros _. split; reflexivity.
    + intros Hother. contradiction.
  - split; [reflexivity|]. split; [reflexivity|]. split.
    + intros Hauto. contradiction.
    + intros _. split; reflexivity.
Qed.

(** The living room, asked for auto while it runs its schedule at 17.5
    degrees, and asked for heat. *)
Lemma set_hvac_mode_behaviour_witness :
  calls (run (async_set_hvac_mode "false" "true"
                (snapshot living_room_scheduled) "auto")
           (thermostat_entity (PInt 21))) =
  [gateway_call (set_temperature (PStr "c50f167537524366a5af7aa3942feb1e")
                   (PFloat (FFin 17.5)));
   set_schedule_state (PStr "c50f167537524366a5af7aa3942feb1e")
     (PStr "Weekschema") "true"]
  /\ calls (run (async_set_hvac_mode "false" "true"
                   (snapshot living_room_scheduled) "heat")
              (thermostat_entity (PInt 21))) =
     [set_schedule_state (PStr "c50f167537524366a5af7aa3942feb1e")
        (PStr "Weekschema") "false"].
Proof.
  destruct (set_hvac_mode_behaviour "false" "true"
              (snapshot living_room_scheduled) (thermostat_entity (PInt 21))
              living_room_scheduled "auto" eq_refl)
    as (_ & _ & Hauto & _).
  destruct (set_hvac_mode_behaviour "false" "true"
              (snapshot living_room_scheduled) (thermostat_entity (PInt 21))
              living_room_scheduled "heat" eq_refl)
    as (_ & _ & _ & Hheat).
  split.
  - exact (proj2 (Hauto eq_refl)).
  - apply Hheat. discriminate.
Defined.

(** X10.  The HVAC mode an entity shows never comes from a request: after
    a schedule command for any mode and the next update of a well-formed
    snapshot, the HVAC mode is the one the update alone would have given,
    and for a request other than auto the whole entity is. *)
Theorem hvac_mode_request_not_kept (SCHEDULE_OFF SCHEDULE_ON : string)
    (coordinator : GatewayData) (s : PlugwiseClimateEntity)
    (hvac_mode : string) :
  well_formed coordinator (_dev_id s) = true ->
  let requested :=
    after (run (async_set_hvac_mode SCHEDULE_OFF SCHEDULE_ON coordinator
                  hvac_mode) s) in
  let updated := after (run (_handle_coordinator_update coordinator) s) in
  let both :=
    after (run (_handle_coordinator_update coordinator) requested) in
  _attr_hvac_mode both = _attr_hvac_mode updated
  /\ (hvac_mode <> HVAC_MODE_AUTO -> both = updated).
Proof.
  intros Hwf requested updated both. subst requested updated both.
  destruct (well_formed_inv _ _ Hwf)
    as (data & heater_data & sensors & Hdata & Hheater & Hsensors & Hpresets).
  rewrite set_hvac_mode_run, Hdata. cbv zeta.
  destruct (String.eqb_spec hvac_mode HVAC_MODE_AUTO) as [Hauto|Hother];
    cbn [after fst snd].
  - split; [|intros Hother; contradiction].
    rewrite (update_run _ s _ _ _ Hdata Hheater Hsensors Hpresets).
    rewrite (update_run _ (set_target_temperature _ s) _ _ _
               Hdata Hheater Hsensors Hpresets).
    reflexivity.
  - split; reflexivity.
Qed.

(** The living room shows auto after it is asked for heat and polled. *)
Lemma hvac_mode_request_not_kept_witness :
  _attr_hvac_mode
    (after (run (_handle_coordinator_update (snapshot living_room_scheduled))
              (after (run (async_set_hvac_mode "false" "true"
                             (snapshot living_room_scheduled) "heat")
                        (thermostat_entity (PInt 21))))))
  = PStr "auto".
Proof.
  pose proof (proj1 (hvac_mode_request_not_kept "false" "true"
                       (snapshot living_room_scheduled)
                       (thermostat_entity (PInt 21)) "heat" eq_refl))
    as Hshown.
  exact Hshown.
Defined.

End ClimateMoreProperties.

(** ** Setting up the Plugwise entities (async_setup_entry)

    Both entity classes start their constructor with
    [super().__init__(coordinator, device_id)], the constructor of
    [PlugwiseEntity] in entity.py, which is not among the sources: it is a
    parameter that returns or raises. *)

Module PlugwiseBase.
Import Plugwise.

(** A base constructor for the examples: it reads the entity's device and
    the gateway's [smile_name] and [gateway_id], a [KeyError] when one of
    them is missing. *)
Definition reads_gateway (coordinator : GatewayData) (device_id : string)
  : outcome unit :=
  match devices coordinator !! device_id,
        gateway coordinator !! "smile_name",
        gateway coordinator !! "gateway_id" with
  | Some _, Some _, Some _ => Return tt
  | _, _, _ => Raise KeyError
  end.

(** The gateway of a snapshot, named. *)
Definition named (smile_name : string) (coordinator : GatewayData)
  : GatewayData :=
  {| gateway :=
       <[ "smile_name" := PStr smile_name ]>
         (<[ "gateway_id" := PStr "fe799307f1624099878210aa0b9f1475" ]>
            (gateway coordinator));
     devices := devices coordinator |}.

End PlugwiseBase.

Module ClimateSetup.
Import Plugwise Climate.

(** What [PlugwiseClimateEntity.__init__] leaves: the attributes above,
    the unique id and the name. *)
Record registered : Type := {
  entity : PlugwiseClimateEntity;
  _attr_unique_id : string;
  _attr_name : pyval
}.

(** [device["class"] in THERMOSTAT_CLASSES] *)
Definition is_thermostat (device : gmap string pyval) : bool :=
  in_strs (dict_get device "class") THERMOSTAT_CLASSES.

(** A generator by what iterating it to its end gives: the entities it
    yields, in order, and the exception that stops it, if one does.
    Nothing of it happens before somebody iterates. *)
Record iteration : Type := {
  yielded : list registered;
  raised : option exn
}.

Section Platform.

(** [DEFAULT_MAX_TEMP] and [DEFAULT_MIN_TEMP] of plugwise/const.py, which
    is not among the sources. *)
Variables DEFAULT_MAX_TEMP DEFAULT_MIN_TEMP : pynum.

(** [PlugwiseEntity.__init__(coordinator, device_id)] *)
Variable super_init : GatewayData -> string -> outcome unit.

(** The platform's callback [async_add_entities], which is handed the
    generator and iterates it when and as far as it likes. *)
Variable async_add_entities : iteration -> outcome unit.

(** [PlugwiseClimateEntity(coordinator, device_id)]: the base constructor
    runs first; then the unique id is formatted and the name and the
    location are read from the device, each read a [KeyError] when it
    finds nothing. *)
Definition new_entity (coordinator : GatewayData) (device_id : string)
  : outcome registered :=
  match super_init coordinator device_id with
  | Raise x => Raise x
  | Return _ =>
      let unique_id := String.append device_id "-climate" in
      match devices coordinator !! device_id with
      | None => Raise KeyError
      | Some device =>
          let name := dict_get device "name" in
          match __init__ DEFAULT_MAX_TEMP DEFAULT_MIN_TEMP coordinator
                  device_id with
          | None => Raise KeyError
          | Some e =>
              Return {| entity := e; _attr_unique_id := unique_id;
                        _attr_name := name |}
          end
      end
  end.

(** The generator expression of [async_setup_entry] over the items of
    [coordinator.data.devices]: the class of a device is tested, an
    entity is made for a thermostat and yielded, and the first exception
    ends the iteration after the entities yielded before it. *)
Fixpoint generator (coordinator : GatewayData)
    (items : list (string * gmap string pyval)) : iteration :=
  match items with
  | [] => {| yielded := []; raised := None |}
  | (device_id, device) :: rest =>
      match device !! "class" with
      | None => {| yielded := []; raised := Some KeyError |}
      | Some class =>
          if in_strs class THERMOSTAT_CLASSES then
            match new_entity coordinator device_id with
            | Raise x => {| yielded := []; raised := Some x |}
            | Return created =>
                let more := generator coordinator rest in
                {| yielded := created :: yielded more;
                   raised := raised more |}
            end
          else generator coordinator rest
      end
  end.

(** The generator that [async_setup_entry] builds.  The items of the
    devices dict are enumerated in the order of the map, which need not
    be the order of insertion. *)
Definition entities (coordinator : GatewayData) : iteration :=
  generator coordinator (map_to_list (devices coordinator)).

(** [async_setup_entry]: the generator is handed to the callback, and
    what the callback returns or raises is the outcome. *)
Definition async_setup_entry (coordinator : GatewayData) : outcome unit :=
  async_add_entities (entities coordinator).

(** A device the generator stops at: one without a class, or a
    thermostat whose base constructor raises or that has no location. *)
Definition unusable (coordinator : GatewayData)
    (item : string * gmap string pyval) : bool :=
  match item.2 !! "class" with
  | None => true
  | Some class =>
      in_strs class THERMOSTAT_CLASSES
      && (match super_init coordinator item.1 with
          | Return _ => false
          | Raise _ => true
          end
          || match item.2 !! "location" with
             | Some _ => false
             | None => true
             end)
  end.

End Platform.

(** The device ids of entities. *)
Definition device_ids (es : list registered) : list string :=
  (fun e => _dev_id (entity e)) <$> es.

(** A callback that iterates the generator to its end. *)
Definition iterate_all (g : iteration) : outcome unit :=
  match raised g with
  | Some x => Raise x
  | None => Return tt
  end.

(** A callback that schedules the entities and iterates later. *)
Definition iterate_later (g : iteration) : outcome unit := Return tt.

End ClimateSetup.

Section ClimateSetupProperties.
Import Plugwise Climate ClimateSetup.

Lemma list_ascii_of_append (s t : string) :
  String.list_ascii_of_string (String.append s t) =
  String.list_ascii_of_string s ++ String.list_ascii_of_string t.
Proof.
  induction s as [|c s IH]; [reflexivity|].
  change (c :: String.list_ascii_of_string (String.append s t) =
          c :: (String.list_ascii_of_string s ++ String.list_ascii_of_string t)).
  rewrite IH. reflexivity.
Qed.

(** Strings with a common suffix differ before it. *)
Lemma append_suffix_inj (t s1 s2 : string) :
  String.append s1 t = String.append s2 t -> s1 = s2.
Proof.
  intros Heq.
  apply (f_equal String.list_ascii_of_string) in Heq.
  rewrite !list_ascii_of_append in Heq.
  apply List.app_inv_tail in Heq.
  rewrite <- (String.string_of_list_ascii_of_string s1),
          <- (String.string_of_list_ascii_of_string s2), Heq.
  reflexivity.
Qed.

Lemma NoDup_fst_filter {A B} (f : A * B -> bool) (l : list (A * B)) :
  NoDup (l.*1) -> NoDup ((List.filter f l).*1).
Proof.
  induction l as [|[a b] l IH]; [intros _; constructor|].
  cbn. rewrite NoDup_cons. intros [Hfresh Hrest].
  destruct (f (a, b)); [|apply IH, Hrest].
  cbn. apply NoDup_cons. split; [|apply IH, Hrest].
  intros Hin. apply Hfresh.
  apply list_elem_of_fmap in Hin as ([a' b'] & -> & Hin).
  apply list_elem_of_In, List.filter_In in Hin as [Hin _].
  apply list_elem_of_fmap. exists (a', b').
  split; [reflexivity | apply list_elem_of_In, Hin].
Qed.

(** The generator over any items: the thermostats come out in order, all
    of them unless an exception stops the iteration. *)
Lemma generator_yields (MAX MIN : pynum)
    (super_init : GatewayData -> string -> outcome unit)
    (coordinator : GatewayData) (items : list (string * gmap string pyval)) :
  let g := generator MAX MIN super_init coordinator items in
  (exists later,
     (List.filter (fun item => is_thermostat item.2) items).*1 =
     device_ids (yielded g) ++ later
     /\ (raised g = None -> later = []))
  /\ Forall (fun e =>
              _attr_unique_id e = String.append (_dev_id (entity e)) "-climate"
              /\ super_init coordinator (_dev_id (entity e)) = Return tt
              /\ exists device,
                   devices coordinator !! _dev_id (entity e) = Some device
                   /\ device !! "location" = Some (_loc_id (entity e))
                   /\ _attr_name e = dict_get device "name") (yielded g).
Proof.
  induction items as [|[device_id device] rest IH].
  - cbn. split; [exists []; split; reflexivity | constructor].
  - cbn [generator List.filter]. unfold is_thermostat at 1. cbn [snd].
    destruct (device !! "class") as [class|] eqn:Hclass.
    + rewrite (dict_get_lookup _ _ _ Hclass).
      destruct (in_strs class THERMOSTAT_CLASSES); [|exact IH].
      destruct IH as [(later & Hids & Hall) Hevery].
      unfold new_entity, __init__.
      destruct (super_init coordinator device_id) as [[]|] eqn:Hsuper.
      2: { cbn. split; [|constructor]. eexists. split; [reflexivity|].
           discriminate. }
      destruct (devices coordinator !! device_id) as [found|] eqn:Hfound.
      2: { cbn. split; [|constructor]. eexists. split; [reflexivity|].
           discriminate. }
      cbn [mbind option_bind].
      destruct (found !! "location") as [location|] eqn:Hlocation.
      2: { cbn. split; [|constructor]. eexists. split; [reflexivity|].
           discriminate. }
      cbn [mbind option_bind yielded raised]. split.
      * exists later. split; [|exact Hall]. cbn. f_equal. exact Hids.
      * constructor; [|exact Hevery]. cbn.
        split; [reflexivity|]. split; [exact Hsuper|].
        exists found. repeat split; assumption.
    + unfold dict_get. rewrite Hclass. cbn.
      split; [|constructor]. eexists. split; [reflexivity|]. discriminate.
Qed.

(** The generator stops exactly at a device it cannot use. *)
Lemma generator_raises (MAX MIN : pynum)
    (super_init : GatewayData -> string -> outcome unit)
    (coordinator : GatewayData) (items : list (string * gmap string pyval)) :
  (forall device_id device,
     (device_id, device) ∈ items ->
     devices coordinator !! device_id = Some device) ->
  match raised (generator MAX MIN super_init coordinator items) with
  | Some x =>
      existsb (unusable super_init coordinator) items = true
      /\ (x = KeyError
          \/ exists device_id, super_init coordinator device_id = Raise x)
  | None => existsb (unusable super_init coordinator) items = false
  end.
Proof.
  induction items as [|[device_id device] rest IH]; intros Hentries.
  - reflexivity.
  - assert (Hrest : forall i d, (i, d) ∈ rest ->
                      devices coordinator !! i = Some d)
      by (intros i d Hin; apply Hentries; right; exact Hin).
    specialize (IH Hrest).
    pose proof (Hentries device_id device ltac:(left)) as Hfound.
    cbn [generator existsb]. unfold unusable at 1 3. cbn [fst snd].
    destruct (device !! "class") as [class|];
      [|cbn; split; [reflexivity | left; reflexivity]].
    destruct (in_strs class THERMOSTAT_CLASSES); cbn [andb orb];
      [|exact IH].
    unfold new_entity, __init__.
    destruct (super_init coordinator device_id) as [[]|x] eqn:Hsuper.
    + rewrite Hfound. cbn [mbind option_bind].
      destruct (device !! "location") as [location|];
        cbn [mbind option_bind orb raised];
        [exact IH | split; [reflexivity | left; reflexivity]].
    + cbn. split; [reflexivity|]. right. exists device_id. exact Hsuper.
Qed.

(** X11.  The generator that the climate platform's setup hands to
    [async_add_entities] yields entities of thermostats only: each is the
    entity of a device of the coordinator data whose class is a thermostat
    class, made after the base constructor returned, with the location and
    the name of its device and the device id followed by -climate as
    unique id.  Device ids and unique ids are pairwise different.
    Iterated to its end without an exception, it has yielded an entity
    for every such device. *)
Theorem climate_setup_entities (DEFAULT_MAX_TEMP DEFAULT_MIN_TEMP : pynum)
    (super_init : GatewayData -> string -> outcome unit)
    (coordinator : GatewayData) :
  let g := entities DEFAULT_MAX_TEMP DEFAULT_MIN_TEMP super_init coordinator in
  (forall device_id : string,
     device_id ∈ device_ids (yielded g) ->
     exists device,
       devices coordinator !! device_id = Some device
       /\ is_thermostat device = true)
  /\ (raised g = None ->
      forall device_id device,
        devices coordinator !! device_id = Some device ->
        is_thermostat device = true ->
        device_id ∈ device_ids (yielded g))
  /\ NoDup (device_ids (yielded g))
  /\ NoDup (_attr_unique_id <$> yielded g)
  /\ Forall (fun e =>
               _attr_unique_id e =
               String.append (_dev_id (entity e)) "-climate"
               /\ super_init coordinator (_dev_id (entity e)) = Return tt
               /\ exists device,
                    devices coordinator !! _dev_id (entity e) = Some device
                    /\ device !! "location" = Some (_loc_id (entity e))
                    /\ _attr_name e = dict_get device "name") (yielded g).
Proof.
  intros g. subst g. unfold entities.
  destruct (generator_yields DEFAULT_MAX_TEMP DEFAULT_MIN_TEMP super_init
              coordinator (map_to_list (devices coordinator)))
    as [(later & Hids & Hall) Hevery].
  set (g := generator _ _ _ _ _) in *.
  assert (Hthermostats :
            forall i, i ∈ (List.filter (fun item => is_thermostat item.2)
                             (map_to_list (devices coordinator))).*1
                      <-> exists device,
                            devices coordinator !! i = Some device
                            /\ is_thermostat device = true).
  { intros i. split.
    - intros Hin.
      apply list_elem_of_fmap in Hin as ([i' device] & -> & Hin).
      apply list_elem_of_In, List.filter_In in Hin as [Hin Hclass].
      apply list_elem_of_In, elem_of_map_to_list in Hin.
      exists device. split; [exact Hin | exact Hclass].
    - intros (device & Hdevice & Hclass).
      apply list_elem_of_fmap. exists (i, device).
      split; [reflexivity|].
      apply list_elem_of_In, List.filter_In. split; [|exact Hclass].
      apply list_elem_of_In, elem_of_map_to_list, Hdevice. }
  assert (Hnodup : NoDup (device_ids (yielded g))).
  { pose proof (NoDup_fst_filter (fun item => is_thermostat item.2) _
                  (NoDup_fst_map_to_list (devices coordinator))) as Hall_ids.
    rewrite Hids in Hall_ids. apply NoDup_app in Hall_ids as [Hfirst _].
    exact Hfirst. }
  split; [|split; [|split; [exact Hnodup|split; [|exact Hevery]]]].
  - intros device_id Hin. apply Hthermostats. rewrite Hids.
    apply elem_of_app. left. exact Hin.
  - intros Hend device_id device Hdevice Hclass.
    assert (Hin : device_id ∈ device_ids (yielded g) ++ later)
      by (rewrite <- Hids; apply Hthermostats; exists device;
          split; assumption).
    rewrite (Hall Hend), app_nil_r in Hin. exact Hin.
  - assert (Hunique : _attr_unique_id <$> yielded g =
                      (fun i => String.append i "-climate")
                        <$> device_ids (yielded g)).
    { unfold device_ids. rewrite <- list_fmap_compose.
      apply Forall_fmap_ext. eapply Forall_impl; [exact Hevery|].
      intros e [Hid _]. exact Hid. }
    rewrite Hunique. apply NoDup_fmap_2_strong; [|exact Hnodup].
    intros i j _ _ Heq. exact (append_suffix_inj _ _ _ Heq).
Qed.

(** X12.  Iterating the generator of the climate platform's setup raises
    exactly when the coordinator data hold a device without a class, or a
    device of a thermostat class whose base constructor raises or that has
    no location; what is raised is a [KeyError] or the exception of the
    base constructor.  The setup itself raises only what
    [async_add_entities] raises: with a callback that iterates later it
    returns on every snapshot. *)
Theorem climate_setup_raises (DEFAULT_MAX_TEMP DEFAULT_MIN_TEMP : pynum)
    (super_init : GatewayData -> string -> outcome unit)
    (coordinator : GatewayData) :
  let g := entities DEFAULT_MAX_TEMP DEFAULT_MIN_TEMP super_init coordinator in
  (raised g <> None
   <-> exists device_id device,
         devices coordinator !! device_id = Some device
         /\ (device !! "class" = None
             \/ (is_thermostat device = true
                 /\ ((exists x, super_init coordinator device_id = Raise x)
                     \/ device !! "location" = None))))
  /\ (forall x, raised g = Some x ->
        x = KeyError
        \/ exists device_id, super_init coordinator device_id = Raise x)
  /\ async_setup_entry DEFAULT_MAX_TEMP DEFAULT_MIN_TEMP super_init
       iterate_later coordinator = Return tt
  /\ async_setup_entry DEFAULT_MAX_TEMP DEFAULT_MIN_TEMP super_init
       iterate_all coordinator =
     match raised g with
     | Some x => Raise x
     | None => Return tt
     end.
Proof.
  intros g. subst g. unfold async_setup_entry, entities.
  pose proof (generator_raises DEFAULT_MAX_TEMP DEFAULT_MIN_TEMP super_init
                coordinator (map_to_list (devices coordinator))
                (fun i d Hin => proj1 (elem_of_map_to_list _ i d) Hin))
    as Hcases.
  assert (Hbad : existsb (unusable super_init coordinator)
                   (map_to_list (devices coordinator)) = true
                 <-> exists device_id device,
                       devices coordinator !! device_id = Some device
                       /\ (device !! "class" = None
                           \/ (is_thermostat device = true
                               /\ ((exists x, super_init coordinator device_id
                                              = Raise x)
                                   \/ device !! "location" = None)))).
  { rewrite List.existsb_exists. split.
    - intros ([i device] & Hin & Hunusable).
      apply list_elem_of_In, elem_of_map_to_list in Hin.
      exists i, device. split; [exact Hin|].
      revert Hunusable. unfold unusable, is_thermostat, dict_get.
      cbn [fst snd].
      destruct (device !! "class") as [class|]; [|left; reflexivity].
      cbn [default from_option id]. intros Hboth.
      apply andb_true_iff in Hboth as [Hclass Hcause].
      right. split; [exact Hclass|].
      apply orb_true_iff in Hcause as [Hsuper|Hlocation].
      + left. destruct (super_init coordinator i) as [|x];
          [discriminate | exists x; reflexivity].
      + right. destruct (device !! "location");
          [discriminate | reflexivity].
    - intros (i & device & Hdevice & Hcase).
      exists (i, device). split.
      + apply list_elem_of_In, elem_of_map_to_list, Hdevice.
      + unfold unusable. cbn [fst snd]. revert Hcase.
        unfold is_thermostat, dict_get.
        destruct (device !! "class") as [class|];
          cbn [default from_option id]; [|reflexivity].
        intros [Hnone|[Hclass [[x Hsuper]|Hlocation]]];
          [discriminate | |].
        * rewrite Hclass, Hsuper. reflexivity.
        * rewrite Hclass, Hlocation. apply orb_true_r. }
  unfold iterate_later, iterate_all.
  destruct (raised (generator _ _ _ _ _)) as [x|].
  - destruct Hcases as [Hunusable Hkind].
    split; [|split; [|split; reflexivity]].
    + split; [intros _; apply Hbad, Hunusable | discriminate].
    + intros x' [= <-]. exact Hkind.
  - split; [|split; [|split; reflexivity]].
    + split; [intros Hraised; contradiction|].
      intros Hexists. apply Hbad in Hexists. congruence.
    + intros x' Hraised. discriminate Hraised.
Qed.

End ClimateSetupProperties.

(** The living room is the one thermostat of the example; the heater is
    no thermostat. *)
Lemma climate_setup_entities_witness :
  "df4a4a8169904cdb9c03d61a21f42140"%string
  ∈ ClimateSetup.device_ids
      (ClimateSetup.yielded
         (ClimateSetup.entities (NInt 30) (NInt 4) PlugwiseBase.reads_gateway
            (PlugwiseBase.named "Anna" (Climate.snapshot Climate.living_room)))).
Proof.
  destruct (climate_setup_entities (NInt 30) (NInt 4)
              PlugwiseBase.reads_gateway
              (PlugwiseBase.named "Anna" (Climate.snapshot Climate.living_room)))
    as (_ & Hevery & _).
  apply (Hevery eq_refl _ Climate.living_room); reflexivity.
Defined.

(** On a gateway that gives no name the base constructor of the example
    raises, and so does the iteration; a device without a class stops it
    as well. *)
Lemma climate_setup_raises_witness :
  ClimateSetup.raised
    (ClimateSetup.entities (NInt 30) (NInt 4) PlugwiseBase.reads_gateway
       (Climate.snapshot Climate.living_room)) <> None
  /\ ClimateSetup.raised
       (ClimateSetup.entities (NInt 30) (NInt 4) PlugwiseBase.reads_gateway
          {| Plugwise.gateway := ∅;
             Plugwise.devices :=
               {[ "b59bcebaf94b499ea7d46e4a66fb62d8" :=
                    {[ "name" := PStr "Lisa" ]} ]} |}) <> None.
Proof.
  split.
  - apply (climate_setup_raises (NInt 30) (NInt 4) PlugwiseBase.reads_gateway).
    exists "df4a4a8169904cdb9c03d61a21f42140"%string, Climate.living_room.
    split; [reflexivity|]. right. split; [reflexivity|].
    left. exists KeyError. reflexivity.
  - apply (climate_setup_raises (NInt 30) (NInt 4) PlugwiseBase.reads_gateway).
    exists "b59bcebaf94b499ea7d46e4a66fb62d8"%string,
           {[ "name"%string := PStr "Lisa" ]}.
    split; [reflexivity|]. left. reflexivity.
Defined.

Module SwitchSetup.
Import Plugwise Switch.

(** [k in s] for two strings: [k] occurs in [s]. *)
Fixpoint occurs_in (k s : string) : bool :=
  String.prefix k s
  || match s with
     | EmptyString => false
     | String _ s' => occurs_in k s'
     end.

(** [k in v] for a string [k]: a key of a dict, an item of a list, a part
    of a string; no other value is a container. *)
Definition contains (v : pyval) (k : string) : outcome bool :=
  match v with
  | PDict d => Return (match assoc d k with Some _ => true | None => false end)
  | PList l => Return (existsb (fun x => eq_str x k) l)
  | PStr s => Return (occurs_in k s)
  | _ => Raise TypeError
  end.

(** What [PlugwiseSwitchEntity.__init__] leaves: the attributes above, the
    unique id and the name. *)
Record registered : Type := {
  entity : PlugwiseSwitchEntity;
  _attr_unique_id : string;
  _attr_name : string
}.

Section Setup.

(** [PlugwiseEntity.__init__(coordinator, device_id)] *)
Variable super_init : GatewayData -> string -> outcome unit.

(** The [device] property of [PlugwiseEntity], as above. *)
Variable device :
  GatewayData -> PlugwiseSwitchEntity -> outcome (gmap string pyval).

(** The name of a new entity from the name of its device and the name of
    its description: the f-string of the two with a space between,
    stripped of leading white space by [str.lstrip]. *)
Variable formatted_name : pyval -> string -> string.

(** [PlugwiseSwitchEntity(coordinator, device_id, description)]: the base
    constructor runs first. *)
Definition new_entity (coordinator : GatewayData) (device_id : string)
    (description : SwitchEntityDescription) : outcome registered :=
  match super_init coordinator device_id with
  | Raise x => Raise x
  | Return _ =>
      let e := {| _dev_id := device_id; entity_description := description |} in
      let unique_id :=
        String.append device_id (String.append "-" (key description)) in
      match device coordinator e with
      | Raise x => Raise x
      | Return data =>
          Return {| entity := e;
                    _attr_unique_id := unique_id;
                    _attr_name :=
                      formatted_name (default (PStr "") (data !! "name"))
                        (name description) |}
      end
  end.

(** The inner loop of [async_setup_entry] for one device: a description is
    skipped when the device has no switches or its key is not among
    them. *)
Fixpoint entities_of_device (coordinator : GatewayData) (device_id : string)
    (data : gmap string pyval) (descriptions : list SwitchEntityDescription)
  : outcome (list registered) :=
  match descriptions with
  | [] => Return []
  | description :: rest =>
      match data !! "switches" with
      | None => entities_of_device coordinator device_id data rest
      | Some switches =>
          match contains switches (key description) with
          | Raise x => Raise x
          | Return false => entities_of_device coordinator device_id data rest
          | Return true =>
              match new_entity coordinator device_id description with
              | Raise x => Raise x
              | Return created =>
                  match entities_of_device coordinator device_id data rest with
                  | Raise x => Raise x
                  | Return more => Return (created :: more)
                  end
              end
          end
      end
  end.

(** The outer loop, over the items of [coordinator.data.devices]. *)
Fixpoint entities_of (coordinator : GatewayData)
    (items : list (string * gmap string pyval)) : outcome (list registered) :=
  match items with
  | [] => Return []
  | (device_id, data) :: rest =>
      match entities_of_device coordinator device_id data SWITCHES with
      | Raise x => Raise x
      | Return created =>
          match entities_of coordinator rest with
          | Raise x => Raise x
          | Return more => Return (created ++ more)
          end
      end
  end.

(** [async_setup_entry]: the entities it adds.  The items of the devices
    dict are enumerated in the order of the map, which need not be the
    order of insertion. *)
Definition async_setup_entry (coordinator : GatewayData)
  : outcome (list registered) :=
  entities_of coordinator (map_to_list (devices coordinator)).

(** A device the loops stop at: its switches cannot be searched for the
    key relay, or they hold it and the base constructor raises. *)
Definition stops (coordinator : GatewayData)
    (item : string * gmap string pyval) : bool :=
  match item.2 !! "switches" with
  | Some switches =>
      match contains switches "relay" with
      | Raise _ => true
      | Return true =>
          match super_init coordinator item.1 with
          | Return _ => false
          | Raise _ => true
          end
      | Return false => false
      end
  | None => false
  end.

End Setup.

(** A device with switches that hold the key [k]. *)
Definition has_switch (data : gmap string pyval) (k : string) : bool :=
  match data !! "switches" with
  | Some switches =>
      match contains switches k with
      | Return b => b
      | Raise _ => false
      end
  | None => false
  end.

(** The device ids of the entities added. *)
Definition device_ids (es : list registered) : list string :=
  (fun e => _dev_id (entity e)) <$> es.

(** A rendering of names for the examples: the name of the description
    alone. *)
Definition description_name (device_name : pyval) (description_name : string)
  : string := description_name.

End SwitchSetup.

Section SwitchSetupProperties.
Import Plugwise Switch SwitchSetup.

Context (super_init : GatewayData -> string -> outcome unit)
        (device : GatewayData -> PlugwiseSwitchEntity ->
                  outcome (gmap string pyval))
        (formatted_name : pyval -> string -> string).

(** The entity of a device for the one description of [SWITCHES]. *)
Definition relay_of (device_id : string) : PlugwiseSwitchEntity :=
  {| _dev_id := device_id;
     entity_description :=
       {| key := "relay"; name := "Relay"; icon := "mdi:electric-switch" |} |}.

(** The loops over any items, when they return. *)
Lemma switch_entities_of_returns (coordinator : GatewayData)
    (items : list (string * gmap string pyval)) (es : list registered) :
  entities_of super_init device formatted_name coordinator items = Return es ->
  entity <$> es =
  relay_of <$> (List.filter (fun item => has_switch item.2 "relay") items).*1
  /\ Forall (fun e =>
              _attr_unique_id e = String.append (_dev_id (entity e)) "-relay"
              /\ exists data, device coordinator (entity e) = Return data) es.
Proof.
  revert es. induction items as [|[device_id data] rest IH]; intros es.
  - cbn. intros [= <-]. split; [reflexivity | constructor].
  - cbn [entities_of entities_of_device SWITCHES List.filter snd key].
    unfold has_switch at 1.
    destruct (data !! "switches") as [switches|].
    + destruct (contains switches "relay") as [[|]|]; [| |discriminate].
      * unfold new_entity.
        destruct (super_init coordinator device_id) as [[]|];
          [|discriminate].
        destruct (device coordinator _) as [found|] eqn:Hfound;
          [|discriminate].
        destruct (entities_of super_init device formatted_name coordinator rest)
          as [more|]; [|discriminate].
        intros [= <-]. destruct (IH more eq_refl) as [Hentities Hall].
        split.
        -- cbn. f_equal. exact Hentities.
        -- constructor; [|exact Hall]. cbn. split; [reflexivity|].
           exists found. exact Hfound.
      * destruct (entities_of super_init device formatted_name coordinator rest)
          as [more|]; [|discriminate].
        intros [= <-]. exact (IH more eq_refl).
    + destruct (entities_of super_init device formatted_name coordinator rest)
        as [more|]; [|discriminate].
      intros [= <-]. exact (IH more eq_refl).
Qed.

(** The entities of a setup that returned, one by one. *)
Lemma switch_setup_member (coordinator : GatewayData)
    (es : list registered) (e : registered) :
  async_setup_entry super_init device formatted_name coordinator = Return es ->
  e ∈ es ->
  entity e = relay_of (_dev_id (entity e))
  /\ exists data,
       devices coordinator !! _dev_id (entity e) = Some data
       /\ has_switch data "relay" = true.
Proof.
  unfold async_setup_entry. intros Hreturns Hin.
  destruct (switch_entities_of_returns _ _ _ Hreturns) as [Hentities _].
  apply (list_elem_of_fmap_2 entity) in Hin. rewrite Hentities in Hin.
  apply list_elem_of_fmap in Hin as (device_id & Heq & Hin).
  apply list_elem_of_fmap in Hin as ([i data] & -> & Hin).
  apply list_elem_of_In, List.filter_In in Hin as [Hin Hswitch].
  apply list_elem_of_In, elem_of_map_to_list in Hin.
  rewrite Heq. cbn. split; [reflexivity|].
  exists data. split; assumption.
Qed.

(** X13.  When the switch platform's setup returns, it has added a relay
    entity for each device of the coordinator data that has switches with
    the key relay among them, and for no other device; the unique ids of
    the entities, each the device id followed by -relay, are pairwise
    different. *)
Theorem switch_setup_entities (coordinator : GatewayData)
    (es : list registered) :
  async_setup_entry super_init device formatted_name coordinator = Return es ->
  (forall device_id : string,
     device_id ∈ device_ids es
     <-> exists data switches,
           devices coordinator !! device_id = Some data
           /\ data !! "switches" = Some switches
           /\ contains switches "relay" = Return true)
  /\ NoDup (_attr_unique_id <$> es)
  /\ Forall (fun e =>
               entity e = relay_of (_dev_id (entity e))
               /\ _attr_unique_id e =
                  String.append (_dev_id (entity e)) "-relay") es.
Proof.
  intros Hreturns. pose proof Hreturns as Hloops.
  unfold async_setup_entry in Hloops.
  destruct (switch_entities_of_returns _ _ _ Hloops) as [Hentities Hall].
  assert (Hids : device_ids es =
                 (List.filter (fun item => has_switch item.2 "relay")
                    (map_to_list (devices coordinator))).*1).
  { transitivity (_dev_id <$> (entity <$> es)).
    - unfold device_ids. rewrite <- list_fmap_compose. reflexivity.
    - rewrite Hentities, <- list_fmap_compose.
      rewrite (list_fmap_ext (_dev_id ∘ relay_of) id);
        [apply list_fmap_id | intros i x _; reflexivity]. }
  assert (Hnodup : NoDup (device_ids es)).
  { rewrite Hids. apply NoDup_fst_filter, NoDup_fst_map_to_list. }
  split; [|split].
  - intros device_id. rewrite Hids. split.
    + intros Hin.
      apply list_elem_of_fmap in Hin as ([i data] & -> & Hin).
      apply list_elem_of_In, List.filter_In in Hin as [Hin Hswitch].
      apply list_elem_of_In, elem_of_map_to_list in Hin.
      cbn [fst snd] in *. unfold has_switch in Hswitch.
      destruct (data !! "switches") as [switches|] eqn:Hswitches;
        [|discriminate].
      exists data, switches. repeat split; try assumption.
      destruct (contains switches "relay") as [b|]; [|discriminate].
      rewrite Hswitch. reflexivity.
    + intros (data & switches & Hdata & Hswitches & Hcontains).
      apply list_elem_of_fmap. exists (device_id, data).
      split; [reflexivity|].
      apply list_elem_of_In, List.filter_In. split.
      * apply list_elem_of_In, elem_of_map_to_list, Hdata.
      * cbn [snd]. unfold has_switch. rewrite Hswitches, Hcontains.
        reflexivity.
  - assert (Hunique : _attr_unique_id <$> es =
                      (fun i => String.append i "-relay") <$> device_ids es).
    { unfold device_ids. rewrite <- list_fmap_compose.
      apply Forall_fmap_ext. eapply Forall_impl; [exact Hall|].
      intros e [Hid _]. exact Hid. }
    rewrite Hunique. apply NoDup_fmap_2_strong; [|exact Hnodup].
    intros i j _ _ Heq. exact (append_suffix_inj _ _ _ Heq).
  - apply Forall_forall. intros e Hin.
    destruct (switch_setup_member _ _ _ Hreturns Hin) as [Hrelay _].
    split; [exact Hrelay|].
    rewrite Forall_forall in Hall. exact (proj1 (Hall e Hin)).
Qed.

(** X14.  Where the [device] property reads the entry of the entity's
    device, every entity the setup added reads its state without a
    [KeyError]: for switches kept in a dict, [is_on] returns the value
    stored under relay, which is there; for switches kept in a list or a
    string, which pass the membership test of the setup as well, [is_on]
    raises [AttributeError]. *)
Theorem created_switch_is_on (coordinator : GatewayData)
    (es : list registered) (e : registered) (data : gmap string pyval) :
  (forall s d, devices coordinator !! _dev_id s = Some d ->
                device coordinator s = Return d) ->
  async_setup_entry super_init device formatted_name coordinator = Return es ->
  e ∈ es ->
  devices coordinator !! _dev_id (entity e) = Some data ->
  exists switches,
    data !! "switches" = Some switches
    /\ match switches with
       | PDict stored =>
           exists v,
             assoc stored "relay" = Some v
             /\ run (is_on device coordinator) (entity e) =
                (Return v, entity e, [])
       | _ =>
           run (is_on device coordinator) (entity e) =
           (Raise AttributeError, entity e, [])
       end.
Proof.
  intros Hdevice Hreturns Hin Hdata.
  destruct (switch_setup_member _ _ _ Hreturns Hin)
    as [Hrelay (data' & Hdata' & Hswitch)].
  rewrite Hdata in Hdata'. injection Hdata' as <-.
  unfold has_switch in Hswitch.
  destruct (data !! "switches") as [switches|] eqn:Hswitches;
    [|discriminate].
  exists switches. split; [reflexivity|].
  cbv [run is_on mbind mret M_bind M_ret bind ret raise self lift getitem].
  rewrite (Hdevice _ _ Hdata), Hswitches, Hrelay.
  cbn [key entity_description relay_of].
  destruct switches as [| | | |str|l|stored]; try discriminate;
    try reflexivity.
  cbn [contains] in Hswitch. cbn [val_get].
  destruct (assoc stored "relay") as [v|]; [|discriminate].
  exists v. split; reflexivity.
Qed.

(** The loops stop exactly at a device of [stops]. *)
Lemma switch_entities_of_raises (coordinator : GatewayData)
    (items : list (string * gmap string pyval)) :
  (forall s d, devices coordinator !! _dev_id s = Some d ->
                device coordinator s = Return d) ->
  (forall device_id data,
     (device_id, data) ∈ items ->
     devices coordinator !! device_id = Some data) ->
  match entities_of super_init device formatted_name coordinator items with
  | Raise x =>
      existsb (stops super_init coordinator) items = true
      /\ (x = TypeError
          \/ exists device_id, super_init coordinator device_id = Raise x)
  | Return _ => existsb (stops super_init coordinator) items = false
  end.
Proof.
  intros Hdevice.
  induction items as [|[device_id data] rest IH]; intros Hentries.
  - reflexivity.
  - assert (Hrest : forall i d, (i, d) ∈ rest ->
                      devices coordinator !! i = Some d)
      by (intros i d Hin; apply Hentries; right; exact Hin).
    specialize (IH Hrest).
    pose proof (Hentries device_id data ltac:(left)) as Hfound.
    cbn [entities_of entities_of_device SWITCHES existsb key].
    unfold stops at 1 3. cbn [fst snd].
    destruct (data !! "switches") as [switches|]; cbn [orb].
    + destruct (contains switches "relay") as [[|]|x] eqn:Hcontains;
        cbn [orb].
      * unfold new_entity.
        destruct (super_init coordinator device_id) as [[]|x] eqn:Hsuper;
          cbn [orb].
        -- pose proof (Hdevice (relay_of device_id) data Hfound) as Hread.
           unfold relay_of in Hread. rewrite Hread.
           destruct (entities_of super_init device formatted_name
                       coordinator rest); exact IH.
        -- split; [reflexivity|]. right. exists device_id. exact Hsuper.
      * destruct (entities_of super_init device formatted_name
                    coordinator rest); exact IH.
      * split; [reflexivity|]. left.
        destruct switches; cbn in Hcontains; congruence.
    + destruct (entities_of super_init device formatted_name coordinator rest);
        exact IH.
Qed.

(** X15.  Where the [device] property reads the entry of the entity's
    device, the switch platform's setup raises, and adds no entity at
    all, exactly when some device of the coordinator data has switches
    that are no dict, list or string ([None], a number), or has the key
    relay among its switches and a base constructor that raises.  What is
    raised is a [TypeError] or the exception of the base constructor. *)
Theorem switch_setup_raises (coordinator : GatewayData) :
  (forall s d, devices coordinator !! _dev_id s = Some d ->
                device coordinator s = Return d) ->
  ((exists x,
      async_setup_entry super_init device formatted_name coordinator = Raise x)
   <-> exists device_id data switches,
         devices coordinator !! device_id = Some data
         /\ data !! "switches" = Some switches
         /\ (contains switches "relay" = Raise TypeError
             \/ (contains switches "relay" = Return true
                 /\ exists x, super_init coordinator device_id = Raise x)))
  /\ (forall x,
        async_setup_entry super_init device formatted_name coordinator
        = Raise x ->
        x = TypeError
        \/ exists device_id, super_init coordinator device_id = Raise x).
Proof.
  intros Hdevice. unfold async_setup_entry.
  pose proof (switch_entities_of_raises coordinator
                (map_to_list (devices coordinator)) Hdevice
                (fun i d Hin => proj1 (elem_of_map_to_list _ i d) Hin))
    as Hcases.
  assert (Hbad : existsb (stops super_init coordinator)
                   (map_to_list (devices coordinator)) = true
                 <-> exists device_id data switches,
                       devices coordinator !! device_id = Some data
                       /\ data !! "switches" = Some switches
                       /\ (contains switches "relay" = Raise TypeError
                           \/ (contains switches "relay" = Return true
                               /\ exists x, super_init coordinator device_id
                                            = Raise x))).
  { rewrite List.existsb_exists. split.
    - intros ([i data] & Hin & Hstops).
      apply list_elem_of_In, elem_of_map_to_list in Hin.
      unfold stops in Hstops. cbn [fst snd] in Hstops.
      destruct (data !! "switches") as [switches|] eqn:Hswitches;
        [|discriminate].
      exists i, data, switches. split; [exact Hin|].
      split; [exact Hswitches|].
      revert Hstops.
      destruct (contains switches "relay") as [[|]|x] eqn:Hcontains;
        intros Hstops.
      + right. split; [reflexivity|].
        destruct (super_init coordinator i) as [|x];
          [discriminate | exists x; reflexivity].
      + discriminate.
      + left. destruct switches; cbn in Hcontains; congruence.
    - intros (i & data & switches & Hdata & Hswitches & Hcase).
      exists (i, data). split.
      + apply list_elem_of_In, elem_of_map_to_list, Hdata.
      + unfold stops. cbn [fst snd]. rewrite Hswitches.
        destruct Hcase as [Hcontains|[Hcontains [x Hsuper]]];
          rewrite Hcontains; [reflexivity|].
        rewrite Hsuper. reflexivity. }
  destruct (entities_of _ _ _ _ _) as [es|x].
  - split.
    + split; [intros [x Hraise]; discriminate|].
      intros Hexists. apply Hbad in Hexists. congruence.
    + intros x Hraise. discriminate.
  - destruct Hcases as [Hstops Hkind]. split.
    + split; [intros _; apply Hbad, Hstops|].
      intros _. exists x. reflexivity.
    + intros x' [= <-]. exact Hkind.
Qed.

End SwitchSetupProperties.

(** The pump relay of the Adam gateway is set up and reads on. *)
Lemma switch_setup_entities_witness :
  "78d1126fc4c743db81b61c20e88342a7"%string
  ∈ SwitchSetup.device_ids
      [ {| SwitchSetup.entity := Switch.cv_pomp;
           SwitchSetup._attr_unique_id :=
             "78d1126fc4c743db81b61c20e88342a7-relay";
           SwitchSetup._attr_name := "Relay" |} ].
Proof.
  destruct (switch_setup_entities PlugwiseBase.reads_gateway
              Switch.devices_lookup SwitchSetup.description_name
              (PlugwiseBase.named "Adam" Switch.adam)
              [ {| SwitchSetup.entity := Switch.cv_pomp;
                   SwitchSetup._attr_unique_id :=
                     "78d1126fc4c743db81b61c20e88342a7-relay";
                   SwitchSetup._attr_name := "Relay" |} ]
              eq_refl) as [Hmembers _].
  apply Hmembers.
  exists (list_to_map [("name"%string, PStr "CV Pomp");
                       ("switches"%string,
                        PDict [("relay"%string, PBool true)])]),
         (PDict [("relay"%string, PBool true)]).
  repeat split.
Defined.

Lemma created_switch_is_on_witness :
  exists v,
    run (Switch.is_on Switch.devices_lookup
           (PlugwiseBase.named "Adam" Switch.adam)) Switch.cv_pomp =
    (Return v, Switch.cv_pomp, []).
Proof.
  destruct (created_switch_is_on PlugwiseBase.reads_gateway
              Switch.devices_lookup SwitchSetup.description_name
              (PlugwiseBase.named "Adam" Switch.adam)
              [ {| SwitchSetup.entity := Switch.cv_pomp;
                   SwitchSetup._attr_unique_id :=
                     "78d1126fc4c743db81b61c20e88342a7-relay";
                   SwitchSetup._attr_name := "Relay" |} ]
              {| SwitchSetup.entity := Switch.cv_pomp;
                 SwitchSetup._attr_unique_id :=
                   "78d1126fc4c743db81b61c20e88342a7-relay";
                 SwitchSetup._attr_name := "Relay" |}
              (list_to_map [("name"%string, PStr "CV Pomp");
                            ("switches"%string,
                             PDict [("relay"%string, PBool true)])]))
    as (switches & Hswitches & Hreads).
  - intros s d Hd. unfold Switch.devices_lookup. rewrite Hd. reflexivity.
  - reflexivity.
  - left.
  - reflexivity.
  - injection Hswitches as <-. destruct Hreads as (v & _ & Hrun).
    exists v. exact Hrun.
Defined.

(** On the Adam gateway without a name the base constructor of the
    example raises for the pump relay, and the setup raises. *)
Lemma switch_setup_raises_witness :
  exists x,
    SwitchSetup.async_setup_entry PlugwiseBase.reads_gateway
      Switch.devices_lookup SwitchSetup.description_name Switch.adam
    = Raise x.
Proof.
  apply (switch_setup_raises PlugwiseBase.reads_gateway Switch.devices_lookup
           SwitchSetup.description_name Switch.adam).
  - intros s d Hd. unfold Switch.devices_lookup. rewrite Hd. reflexivity.
  - exists "78d1126fc4c743db81b61c20e88342a7"%string,
           (list_to_map [("name"%string, PStr "CV Pomp");
                         ("switches"%string,
                          PDict [("relay"%string, PBool true)])]),
           (PDict [("relay"%string, PBool true)]).
    split; [reflexivity|]. split; [reflexivity|].
    right. split; [reflexivity|]. exists KeyError. reflexivity.
Defined.
